(** * VideoFramesToImages: a shallow embedding of [main.py]

    The program is a thin orchestrator around two external binaries
    (ffmpeg and ffprobe).  Everything it does itself is string
    formatting, path arithmetic, exception handling and a loop over the
    files of a folder.  The embedding below keeps that shape:

    - Python [str] values are [string]s: the bytes of their UTF-8
      encoding.  The operations that work character by character
      ([lstrip], [split], [rfind], [startswith], ...) are used with ASCII
      arguments only and are the same on the bytes; [lower] folds the
      letters A-Z on a text of ASCII characters and is the interpreter's
      Unicode case mapping, a field of [Env], on any other text;
    - [pathlib] paths are absolute POSIX paths, a list of components;
    - the file system is a finite map from paths to node kinds;
    - the interpreter's builtins whose results are not determined by the
      program text ([float], [int], [eval] on anything that is not a
      ratio of two literals, number formatting, [Path.resolve], the
      outcome of a child process) are fields of the class [Env];
    - side effects (prints, environment, file system, spawned commands)
      are threaded through a state-and-exception monad [M];
    - the output stream is taken to encode the texts the run is given
      (file names, option values, the messages of the child processes)
      and the ASCII texts of the program.  The one text of the program
      that is not ASCII is the success line of [extract_frames]; whether
      the stream encodes it is a field of [Env], and [print_encoded]
      raises the [UnicodeEncodeError] when it does not;
    - [main_argv] is [main()] from its first statement, on the argument
      vector: [parser.parse_args()] (library code, a field of [Env])
      returns the option values or ends the process itself; [main] is
      the rest of the function, on the parsed arguments. *)

From Stdlib Require Import ZArith String Ascii List DecimalString.
From Stdlib Require Import Floats Uint63.
From Stdlib Require DecimalFacts DecimalPos.
From stdpp Require Import base tactics option list gmap strings sorting.

Local Open Scope Z_scope.

(** ** Python [str] operations *)

Module Str.

(** The line feed, [chr(10)]. *)
Definition nl : string := String (ascii_of_nat 10) "".

(** [s.isascii()] *)
Fixpoint is_ascii (s : string) : bool :=
  match s with
  | "" => true
  | String c s' => (nat_of_ascii c <? 128)%nat && is_ascii s'
  end.

(** [s.lower()] on a text of ASCII characters: the letters A-Z are
    folded, every other character is kept. *)
Definition lower_ascii (c : ascii) : ascii :=
  let n := nat_of_ascii c in
  if ((65 <=? n) && (n <=? 90))%nat then ascii_of_nat (n + 32) else c.

Fixpoint lower (s : string) : string :=
  match s with
  | "" => ""
  | String c s' => String (lower_ascii c) (lower s')
  end.

(** [s.lstrip(".")]: every leading dot is removed. *)
Fixpoint lstrip_dots (s : string) : string :=
  match s with
  | String "." s' => lstrip_dots s'
  | _ => s
  end.

(** [c.isspace()] for a byte: TAB, LF, VT, FF, CR, FS, GS, RS, US, SPACE. *)
Definition is_space (c : ascii) : bool :=
  let n := nat_of_ascii c in
  (((9 <=? n) && (n <=? 13)) || ((28 <=? n) && (n <=? 32)))%nat.

Fixpoint lstrip (s : string) : string :=
  match s with
  | String c s' => if is_space c then lstrip s' else s
  | "" => ""
  end.

(** [s.strip()] *)
Definition strip (s : string) : string :=
  String.rev (lstrip (String.rev (lstrip s))).

(** [s.split(sep)] for a one-character separator: never the empty list. *)
Fixpoint split_on (sep : ascii) (s : string) : list string :=
  match s with
  | "" => [""]
  | String c s' =>
      if Ascii.eqb c sep then "" :: split_on sep s'
      else match split_on sep s' with
           | [] => [String c ""]
           | w :: ws => String c w :: ws
           end
  end.

(** [c in s] for a one-character [c]. *)
Fixpoint contains (c : ascii) (s : string) : bool :=
  match s with
  | "" => false
  | String d s' => Ascii.eqb d c || contains c s'
  end.

(** [sep.join(l)] *)
Fixpoint join (sep : string) (l : list string) : string :=
  match l with
  | [] => ""
  | [x] => x
  | x :: l' => x +:+ sep +:+ join sep l'
  end.

(** [s.startswith(p)] and [s.endswith(p)] *)
Definition startswith (p s : string) : bool := String.prefix p s.
Definition endswith (p s : string) : bool :=
  String.prefix (String.rev p) (String.rev s).

(** [s.rfind(".")]: index of the last dot. *)
Fixpoint rfind_dot (s : string) : option nat :=
  match s with
  | "" => None
  | String c s' =>
      match rfind_dot s' with
      | Some i => Some (S i)
      | None => if Ascii.eqb c "." then Some 0%nat else None
      end
  end.

(** [str(n)] for a natural number and for an integer. *)
Definition of_nat (n : nat) : string := NilZero.string_of_uint (Nat.to_uint n).
Definition of_Z (z : Z) : string := NilZero.string_of_int (Z.to_int z).

(** ['.' * n] *)
Fixpoint dots (n : nat) : string :=
  match n with O => "" | S n' => String "." (dots n') end.

(** ['=' * n] *)
Fixpoint repeat_eq (n : nat) : string :=
  match n with O => "" | S n' => String "=" (repeat_eq n') end.

End Str.

(** ** [pathlib]: absolute POSIX paths *)

(** A resolved path is the list of its components below the root. *)
Definition path := list string.

Module Path.

(** [str(p)] *)
Definition str (p : path) : string := "/" +:+ Str.join "/" p.

(** [p.name]: the last component, empty for the root. *)
Definition name (p : path) : string := List.last p "".

(** [p.suffix]: the part of the name from its last dot on, unless that
    dot starts or ends the name. *)
Definition suffix (p : path) : string :=
  let n := name p in
  match Str.rfind_dot n with
  | Some i =>
      if ((0 <? i) && (i <? String.length n - 1))%nat
      then String.substring i (String.length n - i) n
      else ""
  | None => ""
  end.

(** [p.stem]: the name without its suffix. *)
Definition stem (p : path) : string :=
  let n := name p in
  match Str.rfind_dot n with
  | Some i =>
      if ((0 <? i) && (i <? String.length n - 1))%nat
      then String.substring 0 i n
      else n
  | None => n
  end.

(** The components a string contributes to a path: empty components and
    [.] are dropped by the parser, [..] is kept. *)
Definition parts (s : string) : list string :=
  List.filter (fun c => negb (String.eqb c "" || String.eqb c "."))
    (Str.split_on "/" s).

(** [p / s]: an absolute right operand replaces the left one. *)
Definition join (p : path) (s : string) : path :=
  if Str.startswith "/" s then parts s else p ++ parts s.

(** [q] lies strictly below [p]. *)
Definition below (p q : path) : bool :=
  (Nat.ltb (length p) (length q)) && bool_decide (take (length p) q = p).

(** [q.parent == p] for a path [q] other than the root. *)
Definition child_of (p q : path) : bool :=
  bool_decide (length q = S (length p)) && bool_decide (take (length p) q = p).

(** The order [sorted] uses on paths: component by component, each
    component compared as a string, a proper prefix first. *)
Fixpoint leb (p q : path) : bool :=
  match p, q with
  | [], _ => true
  | _ :: _, [] => false
  | a :: p', b :: q' =>
      if String.eqb a b then leb p' q' else String.leb a b
  end.

Definition le (p q : path) : Prop := leb p q.

End Path.


(** ** Exceptions and results *)

(** The exception classes the program distinguishes.  [ValueError]
    stands for the class and its subclasses; [OtherException] for every
    other subclass of [Exception] (an [OSError] that is not a
    [FileNotFoundError], [SyntaxError], [NameError], [TypeError], ...);
    [KeyboardInterrupt] is the one class outside [Exception]. *)
Inductive exn_class :=
| FileNotFoundError
| ValueError
| RuntimeError
| CalledProcessError
| IndexError
| ZeroDivisionError
| OtherException
| KeyboardInterrupt.

Global Instance exn_class_eq_dec : EqDecision exn_class.
Proof. solve_decision. Defined.

(** An exception: its class and [str(e)]. *)
Record exn := Exn { cls : exn_class; msg : string }.

Inductive res (A : Type) :=
| Ok (a : A)
| Raise (e : exn).
Arguments Ok {A} a.
Arguments Raise {A} e.

(** ** The environment *)

Inductive node := File | Dir.

Global Instance node_eq_dec : EqDecision node.
Proof. solve_decision. Defined.

Abbreviation filesystem := (gmap path node).

(** What running a child process to completion does: the spawn fails
    with an exception, or the child exits with a status, its captured
    output and the file system as it leaves it. *)
Inductive spawn_result :=
| SpawnRaise (e : exn)
| SpawnExit (returncode : Z) (out err : string) (fs' : filesystem).

(** Python numbers, and the values [eval] may return. *)
Inductive num (F : Type) :=
| NInt (z : Z)
| NFloat (f : F).
Arguments NInt {F} z.
Arguments NFloat {F} f.

Inductive pyval (F : Type) :=
| PNum (n : num F)
| PObj.
Arguments PNum {F} n.
Arguments PObj {F}.

(** The metadata dictionary. *)
Record VideoInfo (F : Type) := {
  duration : num F;
  fps : pyval F;
  width : Z;
  height : Z
}.
Arguments duration {F} _.
Arguments fps {F} _.
Arguments width {F} _.
Arguments height {F} _.

(** What [parser.parse_args()] does: it returns the values of the two
    positional arguments and of the three options ([None] for an option
    that is absent), or it ends the process itself, with status 2 after
    the usage and the error on the error stream, or with status 0 after
    the help text on the output stream ([-h]). *)
Inductive parse_result :=
| Parsed (input output : string) (fps format : option string) (quiet : bool)
| ParseError (lines : list string)
| ParseHelp (lines : list string).

(** Everything the program asks of the interpreter and of the machine. *)
Class Env := {
  (** the type of Python floats *)
  F : Type;
  (** [float(s)] *)
  py_float : string -> res F;
  (** [int(s)] *)
  py_int : string -> res Z;
  (** [n / d] on integers, [d] not zero *)
  int_truediv : Z -> Z -> res F;
  (** [eval(s)] for a source text that is not [literal/literal] *)
  eval_other : string -> res (pyval F);
  (** [bool(x)] of a float *)
  float_truthy : F -> bool;
  (** [format(x, ".2f")] *)
  format_2f : pyval F -> res string;
  (** [s.lower()] for a text that is not pure ASCII *)
  unicode_lower : string -> string;
  (** writing a text that is not pure ASCII to [sys.stdout]: the message
      of the [UnicodeEncodeError] the encoding of the stream raises, if
      it raises one *)
  stdout_encode_error : string -> option string;
  (** [parser.parse_args()] on [sys.argv[1:]] *)
  argparse : list string -> parse_result;
  (** [Path(s).expanduser().resolve()] *)
  resolve : string -> path;
  (** [Path(__file__).parent] *)
  script_dir : path;
  (** a child process run to completion: command line, search path,
      file system *)
  spawn : list string -> string -> filesystem -> spawn_result;
  (** [dir.glob(pattern)] for a pattern with a wildcard character or a
      separator in its format part *)
  glob_other : filesystem -> path -> string -> list path
}.

(** ** The state of a run *)

Record World := mkWorld {
  fs : filesystem;                (* the file system *)
  PATH : string;                  (* os.environ["PATH"] *)
  stdout : list string;           (* lines printed to sys.stdout *)
  stderr : list string;           (* lines printed to sys.stderr *)
  spawned : list (list string)    (* command lines run so far *)
}.

Definition M (A : Type) : Type := World -> res A * World.

Definition ret {A} (a : A) : M A := fun w => (Ok a, w).

Definition raise {A} (e : exn) : M A := fun w => (Raise e, w).

Definition bind {A B} (m : M A) (k : A -> M B) : M B :=
  fun w =>
    match m w with
    | (Ok a, w') => k a w'
    | (Raise e, w') => (Raise e, w')
    end.

Definition lift {A} (r : res A) : M A := fun w => (r, w).

(** [try: m  except <classes h accepts> as e: h e] *)
Definition try_except {A} (m : M A) (h : exn -> option (M A)) : M A :=
  fun w =>
    match m w with
    | (Ok a, w') => (Ok a, w')
    | (Raise e, w') =>
        match h e with
        | Some k => k w'
        | None => (Raise e, w')
        end
    end.

Declare Scope py_scope.
Delimit Scope py_scope with py.
Notation "x <- m ;; k" := (bind m (fun x => k))
  (at level 100, m at next level, right associativity) : py_scope.
Notation "m ;; k" := (bind m (fun _ => k))
  (at level 100, right associativity) : py_scope.
Local Open Scope py_scope.

(** [print(s)] of a text the output stream encodes, and
    [print(s, file=sys.stderr)] (the error stream escapes what it cannot
    encode). *)
Definition print (s : string) : M unit :=
  fun w => (Ok tt, mkWorld (fs w) (PATH w) (stdout w ++ [s]) (stderr w) (spawned w)).

Definition eprint (s : string) : M unit :=
  fun w => (Ok tt, mkWorld (fs w) (PATH w) (stdout w) (stderr w ++ [s]) (spawned w)).

Definition when (b : bool) (m : M unit) : M unit := if b then m else ret tt.

(** ** The file system *)

(** The root always exists and is a directory. *)
Definition node_at (m : filesystem) (p : path) : option node :=
  match p with
  | [] => Some Dir
  | _ => m !! p
  end.

Definition exists_ (p : path) : M bool :=
  fun w => (Ok (bool_decide (is_Some (node_at (fs w) p))), w).

Definition is_file (p : path) : M bool :=
  fun w => (Ok (bool_decide (node_at (fs w) p = Some File)), w).

Definition is_dir (p : path) : M bool :=
  fun w => (Ok (bool_decide (node_at (fs w) p = Some Dir)), w).

(** The non-empty prefixes of a path, shortest first. *)
Definition ancestry (p : path) : list path :=
  List.map (fun n => take n p) (seq 1 (length p)).

(** [p.mkdir(parents=True, exist_ok=True)]: a [FileExistsError] when [p]
    is a regular file, a [NotADirectoryError] when one of its ancestors
    is (both are [OSError]s other than [FileNotFoundError]); otherwise
    every missing directory on the way is created. *)
Definition mkdir_parents (p : path) : M unit :=
  fun w =>
    if bool_decide (node_at (fs w) p = Some File)
    then (Raise (Exn OtherException ("[Errno 17] File exists: '" +:+ Path.str p +:+ "'")), w)
    else if existsb (fun q => bool_decide (node_at (fs w) q = Some File)) (ancestry p)
    then (Raise (Exn OtherException ("[Errno 20] Not a directory: '" +:+ Path.str p +:+ "'")), w)
    else
      let m' := foldr (fun q m => match m !! q with
                                  | Some _ => m
                                  | None => <[q := Dir]> m
                                  end) (fs w) (ancestry p) in
      (Ok tt, mkWorld m' (PATH w) (stdout w) (stderr w) (spawned w)).

(** ** The program *)

Section Model.
Context `{E : Env}.

(** *** Child processes *)

Record CompletedProcess := { cp_stdout : string; cp_stderr : string }.

Definition record_spawn (argv : list string) (m : filesystem) (w : World) : World :=
  mkWorld m (PATH w) (stdout w) (stderr w) (spawned w ++ [argv]).

(** [subprocess.run(argv, stdout=PIPE, stderr=PIPE, check=True)] *)
Definition subprocess_run (argv : list string) : M CompletedProcess :=
  fun w =>
    match spawn argv (PATH w) (fs w) with
    | SpawnRaise e => (Raise e, record_spawn argv (fs w) w)
    | SpawnExit rc out err m =>
        if rc =? 0
        then (Ok {| cp_stdout := out; cp_stderr := err |}, record_spawn argv m w)
        else (Raise (Exn CalledProcessError
                       ("Command returned non-zero exit status " +:+ Str.of_Z rc)),
              record_spawn argv m w)
    end.

(** [p = subprocess.Popen(argv, stdout=PIPE, stderr=PIPE); _, stderr =
    p.communicate()]: the pair [(p.returncode, stderr)]. *)
Definition popen_communicate (argv : list string) : M (Z * string) :=
  fun w =>
    match spawn argv (PATH w) (fs w) with
    | SpawnRaise e => (Raise e, record_spawn argv (fs w) w)
    | SpawnExit rc out err m => (Ok (rc, err), record_spawn argv m w)
    end.

(** *** [eval] on a frame-rate text *)

Definition is_digit (c : ascii) : bool :=
  let n := nat_of_ascii c in ((48 <=? n) && (n <=? 57))%nat.

Fixpoint all_chars (f : ascii -> bool) (s : string) : bool :=
  match s with
  | "" => true
  | String c s' => f c && all_chars f s'
  end.

(** A decimal integer literal of the language: digits, no leading zero
    unless every digit is zero, within the interpreter's limit on the
    length of integer texts. *)
Definition int_literal (s : string) : option Z :=
  match s with
  | "" => None
  | String c _ =>
      if all_chars is_digit s
         && (negb (Ascii.eqb c "0") || all_chars (Ascii.eqb "0") s)
         && (String.length s <=? 4300)%nat
      then option_map Z.of_uint (NilZero.uint_of_string s)
      else None
  end.

(** The text is [literal/literal]. *)
Definition parse_ratio (s : string) : option (Z * Z) :=
  match Str.split_on "/" s with
  | [a; b] =>
      match int_literal a, int_literal b with
      | Some n, Some d => Some (n, d)
      | _, _ => None
      end
  | _ => None
  end.

Definition fmap_res {A B} (f : A -> B) (r : res A) : res B :=
  match r with
  | Ok a => Ok (f a)
  | Raise e => Raise e
  end.

(** [eval(s)] *)
Definition py_eval (s : string) : res (pyval F) :=
  match parse_ratio s with
  | Some (n, d) =>
      if d =? 0 then Raise (Exn ZeroDivisionError "division by zero")
      else fmap_res (fun q => PNum (NFloat q)) (int_truediv n d)
  | None => eval_other s
  end.

(** *** class VideoFrameExtractor *)

Record VideoFrameExtractor := {
  video_path : path;
  output_dir : path;
  frame_rate : string;
  format : string;
  ffmpeg_bin : string;
  ffprobe_bin : string
}.

(** [self.script_dir / "ffmpeg" / "bin"] *)
Definition ffmpeg_dir : path := script_dir ++ ["ffmpeg"; "bin"].

(** [os.pathsep] *)
Definition pathsep : string := ":".

(** [frame_rate or "30"] *)
Definition default_frame_rate (frame_rate : option string) : string :=
  match frame_rate with
  | None => "30"
  | Some r => if String.eqb r "" then "30" else r
  end.

(** [s.lower()] *)
Definition py_lower (s : string) : string :=
  if Str.is_ascii s then Str.lower s else unicode_lower s.

(** [format.lower().lstrip(".")] *)
Definition normalize_format (format : string) : string :=
  Str.lstrip_dots (py_lower format).

(** [_setup_ffmpeg_paths]: the pair [(ffmpeg_bin, ffprobe_bin)]. *)
Definition _setup_ffmpeg_paths : M (string * string) :=
  there <- exists_ ffmpeg_dir ;;
  if there : bool then
    (fun w => (Ok tt, mkWorld (fs w) (Path.str ffmpeg_dir +:+ pathsep +:+ PATH w)
                        (stdout w) (stderr w) (spawned w))) ;;
    ret (Path.str (ffmpeg_dir ++ ["ffmpeg.exe"]),
         Path.str (ffmpeg_dir ++ ["ffprobe.exe"]))
  else
    ret ("ffmpeg", "ffprobe").

Definition ffmpeg_missing : string :=
  "FFmpeg is not installed or not in PATH. Please install FFmpeg or ensure ffmpeg folder exists.".

(** [_validate_inputs] *)
Definition _validate_inputs (video_path : path) (ffmpeg_bin : string) : M unit :=
  there <- exists_ video_path ;;
  if negb there then
    raise (Exn FileNotFoundError ("Video file not found: " +:+ Path.str video_path))
  else
    regular <- is_file video_path ;;
    if negb regular then
      raise (Exn ValueError ("Input path is not a file: " +:+ Path.str video_path))
    else
      try_except
        (subprocess_run [ffmpeg_bin; "-version"] ;; ret tt)
        (fun e =>
           match cls e with
           | FileNotFoundError => Some (raise (Exn RuntimeError ffmpeg_missing))
           | CalledProcessError => Some (raise (Exn RuntimeError "FFmpeg check failed."))
           | _ => None
           end).

(** [_create_output_directory] *)
Definition _create_output_directory (output_dir : path) : M unit :=
  mkdir_parents output_dir ;;
  print ("Output directory: " +:+ Path.str output_dir).

(** [__init__] *)
Definition __init__ (video_path output_dir : string)
    (frame_rate : option string) (format : string) : M VideoFrameExtractor :=
  let video_path := resolve video_path in
  let output_dir := resolve output_dir in
  let frame_rate := default_frame_rate frame_rate in
  let format := normalize_format format in
  bins <- _setup_ffmpeg_paths ;;
  _validate_inputs video_path (fst bins) ;;
  _create_output_directory output_dir ;;
  ret {| video_path := video_path; output_dir := output_dir;
         frame_rate := frame_rate; format := format;
         ffmpeg_bin := fst bins; ffprobe_bin := snd bins |}.

Definition zero_info : VideoInfo F :=
  {| duration := NInt 0; fps := PNum (NInt 0); width := 0; height := 0 |}.

Definition ffprobe_cmd (self : VideoFrameExtractor) : list string :=
  [ ffprobe_bin self; "-v"; "error"; "-select_streams"; "v:0";
    "-show_entries"; "stream=duration,r_frame_rate,width,height";
    "-of"; "default=noprint_wrappers=1:nokey=1:noprint_section_header=1";
    Path.str (video_path self) ].

(** The body of the [try] of [_get_video_info]: [Some] for its [return],
    [None] when control falls out of the [if]. *)
Definition probe_and_parse (self : VideoFrameExtractor) : M (option (VideoInfo F)) :=
  result <- subprocess_run (ffprobe_cmd self) ;;
  let lines := Str.split_on (ascii_of_nat 10) (Str.strip (cp_stdout result)) in
  match lines with
  | l0 :: l1 :: l2 :: l3 :: _ =>
      duration <- lift (if String.eqb l0 "" then Ok (NInt 0)
                        else fmap_res NFloat (py_float l0)) ;;
      fps <- lift (if Str.contains "/" l1 then py_eval l1
                   else fmap_res (fun f => PNum (NFloat f)) (py_float l1)) ;;
      width <- lift (if String.eqb l2 "" then Ok 0 else py_int l2) ;;
      height <- lift (if String.eqb l3 "" then Ok 0 else py_int l3) ;;
      ret (Some {| duration := duration; fps := fps;
                   width := width; height := height |})
  | _ => ret None
  end.

(** [except (subprocess.CalledProcessError, ValueError, IndexError)] *)
Definition probe_catches (e : exn) : bool :=
  match cls e with
  | CalledProcessError | ValueError | IndexError => true
  | _ => false
  end.

(** [_get_video_info] *)
Definition _get_video_info (self : VideoFrameExtractor) : M (VideoInfo F) :=
  found <- try_except (probe_and_parse self)
             (fun e => if probe_catches e
                       then Some (print "Warning: Could not retrieve video information" ;;
                                  ret None)
                       else None) ;;
  match found with
  | Some info => ret info
  | None => ret zero_info
  end.

(** [bool(x)] of a number *)
Definition truthy (n : num F) : bool :=
  match n with
  | NInt z => negb (z =? 0)
  | NFloat f => float_truthy f
  end.

(** The three characters the source text has in front of "Successfully"
    (U+00E2, U+0153, U+201C: seven bytes). *)
Definition tick : string :=
  string_of_list_ascii (List.map ascii_of_nat [195; 162; 197; 147; 226; 128; 156]%nat).

(** [self.output_dir / f"frame_%06d.{self.format}"] as a string *)
Definition output_pattern (self : VideoFrameExtractor) : string :=
  Path.str (Path.join (output_dir self) ("frame_%06d." +:+ format self)).

(** The command line of the extraction. *)
Definition ffmpeg_cmd (self : VideoFrameExtractor) : list string :=
  [ ffmpeg_bin self; "-i"; Path.str (video_path self);
    "-vf"; "fps=" +:+ frame_rate self;
    "-start_number"; "0";
    output_pattern self ].

(** A format text with no wildcard character and no separator: the
    pattern [frame_*.<format>] then has the one wildcard and names
    entries of the directory itself. *)
Definition plain_format (format : string) : bool :=
  all_chars (fun c => negb (Ascii.eqb c "*" || Ascii.eqb c "?"
                            || Ascii.eqb c "[" || Ascii.eqb c "/")) format.

(** [fnmatch(name, "frame_*." + format)] for a plain format. *)
Definition frame_name (format name : string) : bool :=
  Str.startswith "frame_" name
  && Str.endswith ("." +:+ format) name
  && (String.length "frame_" + String.length ("." +:+ format) <=? String.length name)%nat.

(** [list(dir.glob(f"frame_*.{format}"))] *)
Definition glob_frames (m : filesystem) (dir : path) (format : string) : list path :=
  if plain_format format
  then filter (fun q => Is_true (Path.child_of dir q && frame_name format (Path.name q)))
         (map_to_list m).*1
  else glob_other m dir ("frame_*." +:+ format).

(** [except Exception] *)
Definition is_Exception (e : exn) : bool :=
  negb (bool_decide (cls e = KeyboardInterrupt)).

(** The [if verbose:] block that follows the probe. *)
Definition announce (self : VideoFrameExtractor) (verbose : bool)
    (video_info : VideoInfo F) : M unit :=
  if verbose then
    print ("Processing video: " +:+ Path.name (video_path self)) ;;
    (if truthy (duration video_info) then
       d <- lift (format_2f (PNum (duration video_info))) ;;
       print ("Duration: " +:+ d +:+ "s") ;;
       f <- lift (format_2f (fps video_info)) ;;
       print ("FPS: " +:+ f) ;;
       print ("Resolution: " +:+ Str.of_Z (width video_info) +:+ "x"
               +:+ Str.of_Z (height video_info))
     else ret tt) ;;
    print ("Extracting frames at " +:+ frame_rate self +:+ " fps as ."
            +:+ format self +:+ "...")
  else ret tt.

(** The line that reports the number of extracted frames. *)
Definition extracted_line (extracted_frames : nat) : string :=
  Str.nl +:+ tick +:+ " Successfully extracted "
    +:+ Str.of_nat extracted_frames +:+ " frames".

(** [print(s)] of the program's text that is not ASCII: when the
    encoding of the stream rejects it, nothing is written and
    [UnicodeEncodeError], a [ValueError], is raised. *)
Definition print_encoded (s : string) : M unit :=
  match stdout_encode_error s with
  | Some m => raise (Exn ValueError m)
  | None => print s
  end.

(** The [try] block of [extract_frames] with its handler. *)
Definition run_ffmpeg (self : VideoFrameExtractor) (verbose : bool) : M bool :=
  let cmd := ffmpeg_cmd self in
  try_except
    (p <- popen_communicate cmd ;;
     if negb (fst p =? 0) then
       print ("FFmpeg error: " +:+ snd p) ;;
       ret false
     else
       extracted_frames <-
         (fun w => (Ok (length (glob_frames (fs w) (output_dir self) (format self))), w)) ;;
       (if verbose then
          print_encoded (extracted_line extracted_frames) ;;
          print ("Frames saved to: " +:+ Path.str (output_dir self))
        else ret tt) ;;
       ret true)
    (fun e => if is_Exception e
              then Some (print ("Error during frame extraction: " +:+ msg e) ;;
                         ret false)
              else None).

(** [extract_frames] *)
Definition extract_frames (self : VideoFrameExtractor) (verbose : bool) : M bool :=
  video_info <- _get_video_info self ;;
  announce self verbose video_info ;;
  run_ffmpeg self verbose.

(** *** find_video_files *)

Definition video_extensions : list string :=
  [ ".mp4"; ".mov"; ".avi"; ".mkv"; ".webm"; ".flv"; ".wmv"; ".m4v";
    ".mpg"; ".mpeg"; ".3gp"; ".m2ts"; ".mts"; ".ts"; ".vob"; ".f4v";
    ".asf"; ".rm"; ".rmvb"; ".ogv"; ".mxf"; ".gif" ].

Global Instance path_le_dec : RelDecision Path.le.
Proof. intros p q. unfold Path.le. apply _. Defined.

(** [folder_path.rglob("*")]: every entry below the folder. *)
Definition rglob_all (m : filesystem) (folder_path : path) : list path :=
  filter (fun q => Is_true (Path.below folder_path q)) (map_to_list m).*1.

Definition is_video (m : filesystem) (file : path) : bool :=
  bool_decide (node_at m file = Some File)
  && bool_decide (py_lower (Path.suffix file) ∈ video_extensions).

(** [find_video_files] on a given file system. *)
Definition find_video_files_in (m : filesystem) (folder_path : path) : list path :=
  merge_sort Path.le
    (filter (fun file => Is_true (is_video m file)) (rglob_all m folder_path)).

Definition find_video_files (folder_path : path) : M (list path) :=
  fun w => (Ok (find_video_files_in (fs w) folder_path), w).

(** *** main *)

(** The parsed command line. *)
Record Args := {
  arg_input : string;
  arg_output : string;
  arg_fps : option string;
  arg_format : string;
  arg_quiet : bool
}.

(** [except (FileNotFoundError, ValueError, RuntimeError)] *)
Definition main_catches (e : exn) : bool :=
  match cls e with
  | FileNotFoundError | ValueError | RuntimeError => true
  | _ => false
  end.

(** The namespace [parser.parse_args()] returns: the two positional
    arguments and the three options with the defaults the parser
    declares. *)
Definition parse_args (input output : string) (fps format : option string)
    (quiet : bool) : Args :=
  {| arg_input := input; arg_output := output; arg_fps := fps;
     arg_format := default "png" format; arg_quiet := quiet |}.

(** [output_base / video_file.stem] *)
Definition video_output_dir (output_base video_file : path) : path :=
  let video_name := Path.stem video_file in
  Path.join output_base video_name.

(** The two statements that build and run the extractor of one video. *)
Definition process_video (args : Args) (output_base video_file : path) : M bool :=
  extractor <- __init__ (Path.str video_file)
                 (Path.str (video_output_dir output_base video_file))
                 (arg_fps args) (arg_format args) ;;
  extract_frames extractor (negb (arg_quiet args)).

(** The line printed before a video of a folder is processed. *)
Definition item_header (total idx : nat) (video_file : path) : string :=
  Str.nl +:+ "[" +:+ Str.of_nat idx +:+ "/" +:+ Str.of_nat total
    +:+ "] Processing: " +:+ Path.name video_file.

(** The body of the [for] loop over the videos of a folder; it returns
    [failed_videos] as the iteration leaves it. *)
Definition batch_item (args : Args) (output_base : path) (total idx : nat)
    (video_file : path) (failed_videos : list string) : M (list string) :=
  when (negb (arg_quiet args)) (print (item_header total idx video_file)) ;;
  try_except
    (success <- process_video args output_base video_file ;;
     ret (if success : bool then failed_videos
          else failed_videos ++ [Path.name video_file]))
    (fun e => if main_catches e
              then Some (eprint ("Error processing " +:+ Path.name video_file
                                  +:+ ": " +:+ msg e) ;;
                         ret (failed_videos ++ [Path.name video_file]))
              else None).

Fixpoint batch_loop (args : Args) (output_base : path) (total idx : nat)
    (video_files : list path) (failed_videos : list string) : M (list string) :=
  match video_files with
  | [] => ret failed_videos
  | video_file :: rest =>
      failed_videos <- batch_item args output_base total idx video_file failed_videos ;;
      batch_loop args output_base total (S idx) rest failed_videos
  end.

(** The summary printed after the loop. *)
Definition print_summary (output_base : path) (total : nat)
    (failed_videos : list string) : M unit :=
  let successful := (total - length failed_videos)%nat in
  print (Str.nl +:+ Str.repeat_eq 50) ;;
  print "Batch processing complete!" ;;
  print ("Successfully processed: " +:+ Str.of_nat successful +:+ "/"
          +:+ Str.of_nat total +:+ " videos") ;;
  when (negb (bool_decide (failed_videos = [])))
    (print ("Failed videos: " +:+ Str.join ", " failed_videos)) ;;
  print ("Output directory: " +:+ Path.str output_base).

(** The [try] block of [main]; every way through it ends in [sys.exit]
    or in an exception, and the value returned here is the exit status
    handed to [sys.exit]. *)
Definition main_body (args : Args) : M Z :=
  let input_path := resolve (arg_input args) in
  let output_base := resolve (arg_output args) in
  folder <- is_dir input_path ;;
  if folder : bool then
    video_files <- find_video_files input_path ;;
    match video_files with
    | [] =>
        print ("No video files found in: " +:+ Path.str input_path) ;;
        ret 1
    | _ =>
        let total := length video_files in
        when (negb (arg_quiet args))
          (print ("Found " +:+ Str.of_nat total +:+ " video file(s) in "
                   +:+ Path.name input_path +:+ "/")) ;;
        failed_videos <- batch_loop args output_base total 1 video_files [] ;;
        when (negb (arg_quiet args)) (print_summary output_base total failed_videos) ;;
        ret (if bool_decide (failed_videos = []) then 0 else 1)
    end
  else
    regular <- is_file input_path ;;
    if regular : bool then
      extractor <- __init__ (arg_input args) (arg_output args)
                      (arg_fps args) (arg_format args) ;;
      success <- extract_frames extractor (negb (arg_quiet args)) ;;
      ret (if success : bool then 0 else 1)
    else
      raise (Exn FileNotFoundError ("Input path not found: " +:+ Path.str input_path)).

(** How the process ends: through [sys.exit(code)], or with an exception
    no handler takes (the interpreter prints a traceback and exits with
    status 1). *)
Inductive termination :=
| Exit (code : Z)
| Traceback (e : exn).

Definition exit_status (t : termination) : Z :=
  match t with
  | Exit code => code
  | Traceback _ => 1
  end.

(** [main] from the statement after [args = parser.parse_args()]: the
    [try] block and its handlers, on the parsed arguments. *)
Definition main (args : Args) (w : World) : termination * World :=
  match main_body args w with
  | (Ok code, w') => (Exit code, w')
  | (Raise e, w') =>
      if main_catches e then
        (Exit 1, snd (eprint ("Error: " +:+ msg e) w'))
      else if bool_decide (cls e = KeyboardInterrupt) then
        (Exit 130, snd (eprint (Str.nl +:+ "Operation cancelled by user") w'))
      else (Traceback e, w')
  end.

(** [main] from its first statement, on [sys.argv[1:]]: the parser is
    called outside the [try], so when it ends the process nothing of the
    rest runs. *)
Definition main_argv (argv : list string) (w : World) : termination * World :=
  match argparse argv with
  | Parsed input output fps format quiet =>
      main (parse_args input output fps format quiet) w
  | ParseError lines =>
      (Exit 2, mkWorld (fs w) (PATH w) (stdout w) (stderr w ++ lines) (spawned w))
  | ParseHelp lines =>
      (Exit 0, mkWorld (fs w) (PATH w) (stdout w ++ lines) (stderr w) (spawned w))
  end.

End Model.

(** ** Vocabulary of the properties *)

Section Vocabulary.
Context `{E : Env}.

(** The version check finds no binary or a failing one: the spawn fails
    because the file is not found, or the binary exits with a non-zero
    status.  (A binary that is there and cannot be executed is neither:
    its spawn fails with another [OSError].) *)
Definition missing_or_failing (bin : string) (w : World) : Prop :=
  match spawn [bin; "-version"] (PATH w) (fs w) with
  | SpawnRaise e => cls e = FileNotFoundError
  | SpawnExit rc _ _ _ => rc <> 0
  end.

(** A well-formed frame-rate line and the rate it denotes: a text
    without a slash that [float] accepts, or a ratio of two integer
    literals with a non-zero denominator whose division gives the rate. *)
Inductive fps_reads : string -> F -> Prop :=
| fps_plain (l : string) (f : F) :
    Str.contains "/" l = false -> py_float l = Ok f -> fps_reads l f
| fps_ratio (l : string) (n d : Z) (q : F) :
    parse_ratio l = Some (n, d) -> d <> 0 -> int_truediv n d = Ok q ->
    fps_reads l q.

(** How one video of a folder ends, said in the words of the batch
    driver: it succeeded, or it failed, either because the extraction
    reported failure or because one of the exceptions the driver catches
    was raised (whose message is then printed on the error stream).  The
    flag is [true] for success; the last world is the one the item
    leaves. *)
Inductive item_ends (args : Args) (output_base : path) (total idx : nat)
    (video_file : path) (w : World) : bool -> World -> Prop :=
| item_succeeded (w' : World) :
    process_video args output_base video_file
      (snd (when (negb (arg_quiet args)) (print (item_header total idx video_file)) w))
    = (Ok true, w') ->
    item_ends args output_base total idx video_file w true w'
| item_failed_extraction (w' : World) :
    process_video args output_base video_file
      (snd (when (negb (arg_quiet args)) (print (item_header total idx video_file)) w))
    = (Ok false, w') ->
    item_ends args output_base total idx video_file w false w'
| item_failed_exception (e : exn) (w' : World) :
    process_video args output_base video_file
      (snd (when (negb (arg_quiet args)) (print (item_header total idx video_file)) w))
    = (Raise e, w') ->
    main_catches e = true ->
    item_ends args output_base total idx video_file w false
      (snd (eprint ("Error processing " +:+ Path.name video_file +:+ ": " +:+ msg e) w')).

(** A batch in which every video was processed, in order, each ending
    as a success or as a failure: the names of the failed ones, in
    order, and the world at the end. *)
Inductive batch_run (args : Args) (output_base : path) (total : nat) :
    nat -> list path -> World -> list string -> World -> Prop :=
| batch_run_nil (idx : nat) (w : World) :
    batch_run args output_base total idx [] w [] w
| batch_run_cons (idx : nat) (video_file : path) (rest : list path)
    (w w1 w2 : World) (ok : bool) (failed : list string) :
    item_ends args output_base total idx video_file w ok w1 ->
    batch_run args output_base total (S idx) rest w1 failed w2 ->
    batch_run args output_base total idx (video_file :: rest) w
      ((if ok then [] else [Path.name video_file]) ++ failed) w2.

(** No video of the list, processed in its turn in the world its
    predecessors leave, raises an exception outside the three classes
    the batch driver catches: each one returns [True] or [False] or
    raises a [FileNotFoundError], a [ValueError] or a [RuntimeError]. *)
Fixpoint items_caught (args : Args) (output_base : path) (total idx : nat)
    (video_files : list path) (w : World) : Prop :=
  match video_files with
  | [] => True
  | video_file :: rest =>
      match process_video args output_base video_file
              (snd (when (negb (arg_quiet args))
                      (print (item_header total idx video_file)) w)) with
      | (Ok _, w') => items_caught args output_base total (S idx) rest w'
      | (Raise e, w') =>
          main_catches e = true
          /\ items_caught args output_base total (S idx) rest
               (snd (eprint ("Error processing " +:+ Path.name video_file
                              +:+ ": " +:+ msg e) w'))
      end
  end.

(** Modelled from the spec: "compared case-insensitively", for texts of
    ASCII characters.  Two characters are the same letter in either
    case when they are equal, or both are letters A-Z, a-z at the same
    place of the alphabet; two texts when they are so character by
    character. *)
Definition is_letter (c : ascii) : bool :=
  let n := nat_of_ascii c in
  (((65 <=? n) && (n <=? 90)) || ((97 <=? n) && (n <=? 122)))%nat.

Definition same_letter (a b : ascii) : bool :=
  Ascii.eqb a b
  || (is_letter a && is_letter b
      && (nat_of_ascii a mod 32 =? nat_of_ascii b mod 32)%nat).

Fixpoint same_ignoring_case (s t : string) : bool :=
  match s, t with
  | "", "" => true
  | String a s', String b t' => same_letter a b && same_ignoring_case s' t'
  | _, _ => false
  end.

(** The lines of the summary. *)
Definition summary_lines (output_base : path) (total : nat)
    (failed : list string) : list string :=
  [ Str.nl +:+ Str.repeat_eq 50;
    "Batch processing complete!";
    "Successfully processed: " +:+ Str.of_nat (total - length failed) +:+ "/"
      +:+ Str.of_nat total +:+ " videos" ]
  ++ (if bool_decide (failed = []) then []
      else ["Failed videos: " +:+ Str.join ", " failed])
  ++ ["Output directory: " +:+ Path.str output_base].

End Vocabulary.

(** ** A concrete environment

    Floats are the kernel's binary64 numbers.  The machine has the two
    binaries on the search path [/usr/bin], only ffmpeg on
    [/usr/ffmpeg-only/bin], and a handful of videos whose probe output
    and extraction outcome are fixed by their name. *)

Module Demo.

Definition float_of_Z (z : Z) : float := PrimFloat.of_uint63 (Uint63.of_Z z).

Definition value_error (s : string) : exn := Exn ValueError s.

(** [float(s)] on texts [digits] and [digits.digits] of at most fifteen
    digits (one correctly rounded division); a [ValueError] otherwise. *)
Definition demo_float (s : string) : res float :=
  match Str.split_on "." s with
  | [a] =>
      if all_chars is_digit a && negb (String.eqb a "") && (String.length a <=? 15)%nat
      then match NilZero.uint_of_string a with
           | Some u => Ok (float_of_Z (Z.of_uint u))
           | None => Raise (value_error ("could not convert string to float: " +:+ s))
           end
      else Raise (value_error ("could not convert string to float: " +:+ s))
  | [a; b] =>
      if all_chars is_digit (a +:+ b) && negb (String.eqb (a +:+ b) "")
         && (String.length (a +:+ b) <=? 15)%nat
      then match NilZero.uint_of_string (a +:+ b) with
           | Some u => Ok (PrimFloat.div (float_of_Z (Z.of_uint u))
                             (float_of_Z (10 ^ Z.of_nat (String.length b))))
           | None => Raise (value_error ("could not convert string to float: " +:+ s))
           end
      else Raise (value_error ("could not convert string to float: " +:+ s))
  | _ => Raise (value_error ("could not convert string to float: " +:+ s))
  end.

(** [int(s)] on texts of digits; a [ValueError] otherwise. *)
Definition demo_int (s : string) : res Z :=
  if all_chars is_digit s && negb (String.eqb s "")
  then match NilZero.uint_of_string s with
       | Some u => Ok (Z.of_uint u)
       | None => Raise (value_error ("invalid literal for int() with base 10: " +:+ s))
       end
  else Raise (value_error ("invalid literal for int() with base 10: " +:+ s)).

(** [n / d] for operands below 2^53: one correctly rounded division. *)
Definition demo_truediv (n d : Z) : res float :=
  if (Z.abs n <? 2 ^ 53) && (Z.abs d <? 2 ^ 53)
  then Ok (PrimFloat.div (float_of_Z n) (float_of_Z d))
  else Raise (Exn OtherException "integer division result too large for a float").

(** Hundredths of a non-negative finite float, rounded to nearest, ties
    to even; [None] for the other floats. *)
Definition hundredths (f : float) : option Z :=
  match FloatOps.Prim2SF f with
  | SpecFloat.S754_zero _ => Some 0
  | SpecFloat.S754_finite false m e =>
      let num := 100 * Z.pos m * 2 ^ Z.max e 0 in
      let den := 2 ^ Z.max (- e) 0 in
      let q := num / den in
      let r := num mod den in
      Some (if (2 * r <? den) then q
            else if (den <? 2 * r) then q + 1
            else if Z.even q then q else q + 1)
  | _ => None
  end.

Definition two_digits (z : Z) : string :=
  if z <? 10 then "0" +:+ Str.of_Z z else Str.of_Z z.

Definition demo_format_2f (v : pyval float) : res string :=
  match v with
  | PNum (NInt z) => Ok (Str.of_Z z +:+ ".00")
  | PNum (NFloat f) =>
      match hundredths f with
      | Some h => Ok (Str.of_Z (h / 100) +:+ "." +:+ two_digits (h mod 100))
      | None => Ok "nan"
      end
  | PObj => Raise (Exn OtherException "unsupported format string")
  end.

(** [str.lower()] on the texts of the examples that are not ASCII, byte
    by byte over the UTF-8 encoding: the capital letters of Latin-1
    (U+00C0 to U+00DE but U+00D7) and the Kelvin sign (U+212A, whose
    lower case is the ASCII [k]) are mapped as the Unicode database maps
    them, the ASCII letters as usual, every other character is kept. *)
Fixpoint lower_codes (l : list nat) : list nat :=
  match l with
  | [] => []
  | a :: l1 =>
      let folded := (if (65 <=? a) && (a <=? 90) then a + 32 else a)%nat in
      match l1 with
      | [] => [folded]
      | b :: l2 =>
          if ((a =? 195) && (128 <=? b) && (b <=? 158) && negb (b =? 151))%nat
          then 195%nat :: (b + 32)%nat :: lower_codes l2
          else match l2 with
               | [] => folded :: lower_codes l1
               | c :: l3 =>
                   if ((a =? 226) && (b =? 132) && (c =? 170))%nat
                   then 107%nat :: lower_codes l3
                   else folded :: lower_codes l1
               end
      end
  end.

Definition demo_unicode_lower (s : string) : string :=
  string_of_list_ascii
    (List.map ascii_of_nat
       (lower_codes (List.map nat_of_ascii (list_ascii_of_string s)))).

(** The parser of the examples: the options by their full names, [-q]
    and [-h]; an argument that starts with a dash is an option. *)
Definition usage_line : string :=
  "usage: main.py [-h] [--fps FPS] [--format FORMAT] [-q] input output".

Definition parse_error (message : string) : parse_result :=
  ParseError [usage_line; "main.py: error: " +:+ message].

Fixpoint demo_argparse_from (argv positional : list string)
    (fps format : option string) (quiet : bool) : parse_result :=
  match argv with
  | [] =>
      match positional with
      | [] => parse_error "the following arguments are required: input, output"
      | [_] => parse_error "the following arguments are required: output"
      | [input; output] => Parsed input output fps format quiet
      | _ :: _ :: extra => parse_error ("unrecognized arguments: " +:+ Str.join " " extra)
      end
  | a :: rest =>
      if String.eqb a "-h" || String.eqb a "--help" then ParseHelp [usage_line]
      else if String.eqb a "-q" || String.eqb a "--quiet"
      then demo_argparse_from rest positional fps format true
      else if String.eqb a "--fps"
      then match rest with
           | v :: rest' => demo_argparse_from rest' positional (Some v) format quiet
           | [] => parse_error "argument --fps: expected one argument"
           end
      else if String.eqb a "--format"
      then match rest with
           | v :: rest' => demo_argparse_from rest' positional fps (Some v) quiet
           | [] => parse_error "argument --format: expected one argument"
           end
      else if Str.startswith "-" a
      then parse_error ("unrecognized arguments: " +:+ a)
      else demo_argparse_from rest (positional ++ [a]) fps format quiet
  end.

Definition demo_argparse (argv : list string) : parse_result :=
  demo_argparse_from argv [] None None false.

(** Paths are taken relative to the working directory [/work]. *)
Definition demo_resolve (s : string) : path :=
  if Str.startswith "/" s then Path.parts s else ["work"] ++ Path.parts s.

Definition not_found (bin : string) : exn :=
  Exn FileNotFoundError ("[Errno 2] No such file or directory: '" +:+ bin +:+ "'").

(** Is the binary there: a name is looked up on the search path, a path
    in the file system. *)
Definition on_machine (bin search : string) (m : filesystem) : bool :=
  if Str.startswith "/" bin then bool_decide (m !! Path.parts bin = Some File)
  else if String.eqb bin "ffmpeg"
       then String.eqb search "/usr/bin" || String.eqb search "/usr/ffmpeg-only/bin"
  else if String.eqb bin "ffprobe" then String.eqb search "/usr/bin"
  else false.

(** What ffprobe prints for a video. *)
Definition probe_output (video : string) : option string :=
  if Str.endswith "zero.mp4" video
  then Some ("5.0" +:+ Str.nl +:+ "0/0" +:+ Str.nl +:+ "640" +:+ Str.nl +:+ "480" +:+ Str.nl)
  else if Str.endswith ".mp4" video
  then Some ("10.5" +:+ Str.nl +:+ "30000/1001" +:+ Str.nl +:+ "1920" +:+ Str.nl
              +:+ "1080" +:+ Str.nl)
  else if Str.endswith ".mov" video
  then Some ("N/A" +:+ Str.nl +:+ "25/1" +:+ Str.nl +:+ "640" +:+ Str.nl +:+ "480" +:+ Str.nl)
  else None.

(** The frame files ffmpeg writes for an output pattern: three frames,
    numbered from 0. *)
Definition frame_files (pattern : string) : list path :=
  match reverse (Path.parts pattern) with
  | last :: rdir =>
      let ext := String.substring 10 (String.length last - 10) last in
      List.map (fun i => reverse rdir ++ ["frame_00000" +:+ Str.of_nat i +:+ ext])
        [0; 1; 2]%nat
  | [] => []
  end.

Definition add_files (m : filesystem) (l : list path) : filesystem :=
  foldr (fun q acc => <[q := File]> acc) m l.

Definition demo_spawn (argv : list string) (search : string) (m : filesystem)
    : spawn_result :=
  match argv with
  | [] => SpawnRaise (not_found "")
  | bin :: rest =>
      if negb (on_machine bin search m) then SpawnRaise (not_found bin)
      else match rest with
           | ["-version"] => SpawnExit 0 "ffmpeg version 6.0" "" m
           | ["-i"; video; "-vf"; _; "-start_number"; _; pattern] =>
               if Str.endswith "broken.mp4" video
               then SpawnExit 1 "" "Invalid data found when processing input" m
               else SpawnExit 0 "" "" (add_files m (frame_files pattern))
           | _ =>
               match probe_output (List.last rest "") with
               | Some text => SpawnExit 0 text "" m
               | None => SpawnExit 1 "" "Invalid data found when processing input" m
               end
           end
  end.

Definition demo_env : Env := {|
  F := float;
  py_float := demo_float;
  py_int := demo_int;
  int_truediv := demo_truediv;
  eval_other := fun _ => Raise (Exn OtherException "invalid syntax");
  float_truthy := fun f => negb (PrimFloat.eqb f 0%float);
  format_2f := demo_format_2f;
  unicode_lower := demo_unicode_lower;
  stdout_encode_error := fun _ => None;
  argparse := demo_argparse;
  resolve := demo_resolve;
  script_dir := ["opt"; "tool"];
  spawn := demo_spawn;
  glob_other := fun _ _ _ => []
|}.

Definition dirs (l : list path) : filesystem :=
  foldr (fun q acc => <[q := Dir]> acc) ∅ l.

(** A folder with one file of each of four extensions. *)
Definition mixed_folder : filesystem :=
  add_files (dirs [["videos"]])
    [["videos"; "b.mov"]; ["videos"; "notes.txt"]; ["videos"; "a.mp4"];
     ["videos"; "cover.jpg"]].

(** Three videos, the second of which ffmpeg rejects. *)
Definition three_videos : filesystem :=
  add_files (dirs [["videos"]])
    [["videos"; "a.mp4"]; ["videos"; "broken.mp4"]; ["videos"; "c.mov"]].

(** One video whose stream reports the frame rate [0/0]. *)
Definition zero_rate_folder : filesystem :=
  add_files (dirs [["videos"]]) [["videos"; "zero.mp4"]].

(** Two videos of the same name in two subfolders. *)
Definition same_name_folder : filesystem :=
  add_files (dirs [["videos"]; ["videos"; "x"]; ["videos"; "y"]])
    [["videos"; "x"; "clip.mp4"]; ["videos"; "y"; "clip.mp4"]].

Definition world (m : filesystem) (search : string) : World :=
  mkWorld m search [] [] [].

(** The extractor of [/videos/a.mp4] with output directory [/out]. *)
Definition extractor : VideoFrameExtractor :=
  {| video_path := ["videos"; "a.mp4"]; output_dir := ["out"];
     frame_rate := "30"; format := "png";
     ffmpeg_bin := "ffmpeg"; ffprobe_bin := "ffprobe" |}.

Definition args (input output : string) (quiet : bool) : Args :=
  {| arg_input := input; arg_output := output; arg_fps := None;
     arg_format := "png"; arg_quiet := quiet |}.

(** The world in which the extraction command of [extractor] is
    spawned: after the probe and the announcements. *)
Definition probed : res (VideoInfo float) * World :=
  @_get_video_info demo_env extractor (world mixed_folder "/usr/bin").

Definition probed_info : VideoInfo float :=
  match fst probed with Ok info => info | Raise _ => @zero_info demo_env end.

Definition announced : res unit * World :=
  @announce demo_env extractor true probed_info (snd probed).

(** The file system the extraction leaves. *)
Definition extracted : filesystem :=
  add_files mixed_folder (frame_files "/out/frame_%06d.png").

End Demo.

(** ** Further concrete cases *)

Module Cases.
Import Demo.

(** The environment of [Demo] with child processes that follow a
    script: the outcome depends on the command line and the file system
    alone. *)
Definition scripted_env (script : list string -> filesystem -> spawn_result) : Env := {|
  F := float;
  py_float := demo_float;
  py_int := demo_int;
  int_truediv := demo_truediv;
  eval_other := fun _ => Raise (Exn OtherException "invalid syntax");
  float_truthy := fun f => negb (PrimFloat.eqb f 0%float);
  format_2f := demo_format_2f;
  unicode_lower := demo_unicode_lower;
  stdout_encode_error := fun _ => None;
  argparse := demo_argparse;
  resolve := demo_resolve;
  script_dir := ["opt"; "tool"];
  spawn := fun argv _ m => script argv m;
  glob_other := fun _ _ _ => []
|}.

(** The environment of [Demo] with an output stream encoded in ASCII:
    it rejects every text that is not ASCII. *)
Definition ascii_stdout_env : Env := {|
  F := float;
  py_float := demo_float;
  py_int := demo_int;
  int_truediv := demo_truediv;
  eval_other := fun _ => Raise (Exn OtherException "invalid syntax");
  float_truthy := fun f => negb (PrimFloat.eqb f 0%float);
  format_2f := demo_format_2f;
  unicode_lower := demo_unicode_lower;
  stdout_encode_error := fun _ =>
    Some "'ascii' codec can't encode characters in position 1-3: ordinal not in range(128)";
  argparse := demo_argparse;
  resolve := demo_resolve;
  script_dir := ["opt"; "tool"];
  spawn := demo_spawn;
  glob_other := fun _ _ _ => []
|}.

(** The version check passes and the probe prints a single line. *)
Definition short_probe (argv : list string) (m : filesystem) : spawn_result :=
  match argv with
  | [_; "-version"] => SpawnExit 0 "ffmpeg version 6.0" "" m
  | _ => SpawnExit 0 ("10.5" +:+ Str.nl) "" m
  end.

(** The binary is there and may not be executed. *)
Definition permission_denied (argv : list string) (m : filesystem) : spawn_result :=
  SpawnRaise (Exn OtherException "[Errno 13] Permission denied: 'ffmpeg'").

(** The extractor of [/videos/b.mov], whose probe prints no duration. *)
Definition extractor_mov : VideoFrameExtractor :=
  {| video_path := ["videos"; "b.mov"]; output_dir := ["out"];
     frame_rate := "30"; format := "png";
     ffmpeg_bin := "ffmpeg"; ffprobe_bin := "ffprobe" |}.

(** The bundled directory is there, without the binaries. *)
Definition bundled_dir_folder : filesystem :=
  add_files
    (dirs [["opt"]; ["opt"; "tool"]; ["opt"; "tool"; "ffmpeg"];
           ["opt"; "tool"; "ffmpeg"; "bin"]; ["videos"]])
    [["videos"; "a.mp4"]].

(** The output directory holds a frame of an earlier run. *)
Definition stale_folder : filesystem :=
  add_files (dirs [["videos"]; ["out"]])
    [["videos"; "a.mp4"]; ["out"; "frame_000009.png"]].

(** The Kelvin sign, U+212A: the bytes E2 84 AA. *)
Definition kelvin : string :=
  string_of_list_ascii (List.map ascii_of_nat [226; 132; 170]%nat).

(** Names in capital and mixed letters, and one whose suffix has the
    Kelvin sign for its [k]. *)
Definition mixed_case_folder : filesystem :=
  add_files (dirs [["videos"]])
    [["videos"; "A.MP4"]; ["videos"; "b.MoV"]; ["videos"; "notes.TXT"];
     ["videos"; "cover.jpg"]; ["videos"; "c.m" +:+ kelvin +:+ "v"]].

(** A directory [a] beside the files [a-b.mp4] and [a.mp4]. *)
Definition order_folder : filesystem :=
  add_files (dirs [["v"]; ["v"; "a"]])
    [["v"; "a"; "x.mp4"]; ["v"; "a-b.mp4"]; ["v"; "a.mp4"]].

(** A folder without a video. *)
Definition no_video_folder : filesystem :=
  add_files (dirs [["videos"]]) [["videos"; "notes.txt"]].

(** Three videos, the second of which reports the frame rate [0/0]. *)
Definition abort_folder : filesystem :=
  add_files (dirs [["videos"]])
    [["videos"; "a.mp4"]; ["videos"; "zero.mp4"]; ["videos"; "zz.mp4"]].

End Cases.

(** ** Running the monad *)

Ltac unfold_monad :=
  unfold bind, ret, raise, lift, when, try_except, print, eprint,
    exists_, is_file, is_dir in *.


(** * Properties *)

(** ** The order on paths *)

Lemma string_eqb_sym (a b : string) : String.eqb a b = String.eqb b a.
Proof.
  destruct (String.eqb_spec a b) as [->|Hne].
  - symmetry. apply String.eqb_refl.
  - symmetry. apply String.eqb_neq. congruence.
Qed.

Global Instance path_le_total : Total Path.le.
Proof.
  intros p. unfold Path.le.
  induction p as [|a p IH]; intros [|b q]; simpl; auto.
  rewrite (string_eqb_sym b a).
  destruct (String.eqb a b); [apply IH|].
  destruct (String.leb_total a b) as [-> | ->]; simpl; auto.
Qed.

Global Instance path_le_trans : Transitive Path.le.
Proof.
  intros p. unfold Path.le.
  induction p as [|a p IH]; intros [|b q] [|c r]; simpl; auto; try tauto.
  destruct (String.eqb_spec a b) as [->|Hab].
  - destruct (String.eqb c b) eqn:Hcb; rewrite string_eqb_sym, Hcb; [apply IH | tauto].
  - destruct (String.eqb_spec b c) as [->|Hbc].
    + rewrite (proj2 (String.eqb_neq a c) Hab). tauto.
    + intros H1 H2.
      assert (Hac : String.le a c) by (etrans; [exact H1 | exact H2]).
      destruct (String.eqb_spec a c) as [->|_]; [|exact Hac].
      destruct Hab. apply (anti_symm String.le); assumption.
Qed.

(** ** Enumeration of the videos of a folder *)

Lemma elem_of_keys (m : filesystem) (p : path) :
  p ∈ (map_to_list m).*1 <-> is_Some (m !! p).
Proof.
  rewrite list_elem_of_fmap. split.
  - intros [[q n] [-> Hin]]. apply elem_of_map_to_list in Hin. simpl. eauto.
  - intros [n Hn]. exists (p, n). split; [done|]. by apply elem_of_map_to_list.
Qed.

Lemma node_at_below (m : filesystem) (folder p : path) :
  Path.below folder p = true -> node_at m p = m !! p.
Proof.
  unfold Path.below. destruct p; [|done].
  rewrite andb_true_iff, Nat.ltb_lt. simpl. lia.
Qed.

(** *** Letter case on texts of ASCII characters *)

Lemma lower_ascii_same_letter_codes :
  forallb (fun i =>
    forallb (fun j =>
      implb (Ascii.eqb (Str.lower_ascii (ascii_of_nat j)) (ascii_of_nat j))
        (Bool.eqb (Ascii.eqb (Str.lower_ascii (ascii_of_nat i)) (ascii_of_nat j))
           (same_letter (ascii_of_nat i) (ascii_of_nat j))))
      (seq 0 256)) (seq 0 256) = true.
Proof. vm_compute. reflexivity. Qed.

(** Lower-casing a character gives a character that has no capital form
    exactly when the two are the same letter. *)
Lemma lower_ascii_same_letter (a b : ascii) :
  Str.lower_ascii b = b ->
  (Str.lower_ascii a = b <-> same_letter a b = true).
Proof.
  intros Hb.
  pose proof lower_ascii_same_letter_codes as Hall.
  rewrite forallb_forall in Hall.
  specialize (Hall (nat_of_ascii a)). rewrite forallb_forall in Hall.
  assert (Hin : forall c, In (nat_of_ascii c) (seq 0 256)).
  { intros c. apply in_seq. pose proof (nat_ascii_bounded c). lia. }
  specialize (Hall (Hin a) (nat_of_ascii b) (Hin b)).
  rewrite !ascii_nat_embedding in Hall.
  rewrite (proj2 (Ascii.eqb_eq _ _) Hb) in Hall. simpl in Hall.
  apply Bool.eqb_prop in Hall. rewrite <- Hall. symmetry. apply Ascii.eqb_eq.
Qed.

Lemma lower_same_ignoring_case (s e : string) :
  Str.lower e = e ->
  (Str.lower s = e <-> same_ignoring_case s e = true).
Proof.
  revert e. induction s as [|a s IH]; intros [|b e]; simpl; try done.
  intros [= Hb He]. rewrite andb_true_iff, <- (lower_ascii_same_letter a b Hb), <- (IH e He).
  split; [by intros [= -> ->] | by intros [-> ->]].
Qed.

Lemma video_extensions_lower :
  Forall (fun ext => Str.lower ext = ext) video_extensions.
Proof. unfold video_extensions. repeat constructor. Qed.

Section FolderScan.
Context `{E : Env}.

Lemma py_lower_ascii (s : string) :
  Str.is_ascii s = true -> py_lower s = Str.lower s.
Proof. intros Hs. unfold py_lower. by rewrite Hs. Qed.

(** On a suffix of ASCII characters, to be on the list once lower-cased
    is to be an extension of the list in some letter case. *)
Lemma listed_ignoring_case (s : string) :
  Str.is_ascii s = true ->
  (py_lower s ∈ video_extensions
   <-> exists ext, ext ∈ video_extensions /\ same_ignoring_case s ext = true).
Proof.
  intros Hs. rewrite (py_lower_ascii s Hs). split.
  - intros Hin. exists (Str.lower s). split; [done|].
    apply lower_same_ignoring_case; [|done].
    by apply (proj1 (Forall_forall _ _) video_extensions_lower).
  - intros (ext & Hin & Hsame).
    apply lower_same_ignoring_case in Hsame as ->; [done|].
    by apply (proj1 (Forall_forall _ _) video_extensions_lower).
Qed.

(** What the folder scan returns: its members, its order, and that it
    repeats nothing. *)
Lemma find_video_files_in_members (m : filesystem) (folder_path p : path) :
  p ∈ find_video_files_in m folder_path <->
  Path.below folder_path p = true
  /\ m !! p = Some File
  /\ py_lower (Path.suffix p) ∈ video_extensions.
Proof.
  unfold find_video_files_in, rglob_all, is_video.
  rewrite merge_sort_Permutation, !list_elem_of_filter, elem_of_keys.
  rewrite andb_True, !bool_decide_spec, Is_true_true.
  split.
  - intros [[Hf He] [Hb [n Hn]]]. rewrite (node_at_below _ _ _ Hb) in Hf. done.
  - intros (Hb & Hf & He). rewrite (node_at_below _ _ _ Hb). eauto.
Qed.

Lemma find_video_files_in_sorted (m : filesystem) (folder_path : path) :
  StronglySorted Path.le (find_video_files_in m folder_path)
  /\ NoDup (find_video_files_in m folder_path).
Proof.
  split.
  - apply StronglySorted_merge_sort; apply _.
  - unfold find_video_files_in, rglob_all.
    rewrite merge_sort_Permutation.
    apply NoDup_filter, NoDup_filter, NoDup_fst_map_to_list.
Qed.

(** C5 (the claim is amended on the order): the folder scan returns
    exactly the regular files below the folder whose suffix, lower-cased
    as [str.lower] does, is on the list of video extensions; for a
    suffix of ASCII characters that is to say that the suffix is an
    extension of the list in any letter case.  The result lists no file
    twice and is sorted in the order [sorted] uses on paths, component
    by component, which is not the order of the full path strings.  In
    particular a file named [*.mp4] or [*.mov], in small, capital or
    mixed letters, is selected and a file named [*.txt] or [*.jpg] is
    not. *)
Theorem find_video_files_selects_and_sorts (m : filesystem) (folder_path : path) :
  (forall p, p ∈ find_video_files_in m folder_path <->
             Path.below folder_path p = true
             /\ node_at m p = Some File
             /\ py_lower (Path.suffix p) ∈ video_extensions)
  /\ (forall p, Str.is_ascii (Path.suffix p) = true ->
        (p ∈ find_video_files_in m folder_path <->
         Path.below folder_path p = true
         /\ node_at m p = Some File
         /\ exists ext, ext ∈ video_extensions
                        /\ same_ignoring_case (Path.suffix p) ext = true))
  /\ StronglySorted Path.le (find_video_files_in m folder_path)
  /\ NoDup (find_video_files_in m folder_path)
  /\ (forall p, Path.below folder_path p = true -> node_at m p = Some File ->
        (Path.suffix p ∈ [".mp4"; ".MP4"; ".Mp4"; ".mov"; ".MOV"; ".MoV"] ->
           p ∈ find_video_files_in m folder_path)
        /\ (Path.suffix p ∈ [".txt"; ".TXT"; ".jpg"; ".JPG"; ""] ->
              p ∉ find_video_files_in m folder_path)).
Proof.
  assert (Hmem : forall p, p ∈ find_video_files_in m folder_path <->
             Path.below folder_path p = true
             /\ node_at m p = Some File
             /\ py_lower (Path.suffix p) ∈ video_extensions).
  { intros p. rewrite find_video_files_in_members. split.
    - intros (Hb & Hf & He). by rewrite (node_at_below _ _ _ Hb).
    - intros (Hb & Hf & He). by rewrite <- (node_at_below _ _ _ Hb). }
  split; [exact Hmem|]. split; [|split; [|split]].
  - intros p Hs. rewrite Hmem, (listed_ignoring_case _ Hs). done.
  - apply find_video_files_in_sorted.
  - apply find_video_files_in_sorted.
  - intros p Hb Hf. split.
    + intros Hs. apply Hmem. repeat split; try done.
      repeat (apply elem_of_cons in Hs as [-> | Hs];
              [vm_compute; repeat first [by left | right]|]).
      by apply elem_of_nil in Hs.
    + intros Hs Hin. apply Hmem in Hin as (_ & _ & He).
      repeat (apply elem_of_cons in Hs as [Hs | Hs];
              [rewrite Hs in He; vm_compute in He;
               repeat (apply elem_of_cons in He as [He | He]; [discriminate He|]);
               by apply elem_of_nil in He|]).
      by apply elem_of_nil in Hs.
Qed.

End FolderScan.

(** ** Facts about the string operations *)

Lemma lstrip_dots_cons (c : ascii) (s : string) :
  Str.lstrip_dots (String c s)
  = if Ascii.eqb c "." then Str.lstrip_dots s else String c s.
Proof. destruct c as [[] [] [] [] [] [] [] []]; reflexivity. Qed.

Lemma lstrip_dots_no_leading_dot (s s' : string) :
  Str.lstrip_dots s <> String "." s'.
Proof.
  induction s as [|c s IH]; [discriminate|].
  rewrite lstrip_dots_cons. destruct (Ascii.eqb_spec c "."); [exact IH|congruence].
Qed.

Lemma lstrip_dots_only_dots (s : string) :
  exists k, s = Str.dots k +:+ Str.lstrip_dots s.
Proof.
  induction s as [|c s [k IH]]; [by exists 0%nat|].
  rewrite lstrip_dots_cons. destruct (Ascii.eqb_spec c ".") as [->|].
  - exists (S k). change (Str.dots (S k) +:+ Str.lstrip_dots s)
      with (String "." (Str.dots k +:+ Str.lstrip_dots s)). by rewrite <- IH.
  - by exists 0%nat.
Qed.

Lemma lower_get (s : string) (i : nat) :
  String.get i (Str.lower s) = option_map Str.lower_ascii (String.get i s).
Proof.
  revert i. induction s as [|c s IH]; intros [|i]; simpl; auto.
Qed.

Lemma split_on_no_sep (c : ascii) (s : string) :
  Str.contains c s = false -> Str.split_on c s = [s].
Proof.
  induction s as [|d s IH]; simpl; [done|].
  intros [Hd Hs]%orb_false_iff. by rewrite Hd, IH.
Qed.

Lemma split_on_two_contains (c : ascii) (s a b : string) :
  Str.split_on c s = [a; b] -> Str.contains c s = true.
Proof.
  revert a. induction s as [|d s IH]; simpl; intros a; [done|].
  destruct (Ascii.eqb d c); [done|].
  destruct (Str.split_on c s) as [|x xs] eqn:Hs; [done|].
  intros [= <- ->]. simpl. by apply (IH x).
Qed.

Lemma contains_app (c : ascii) (s t : string) :
  Str.contains c (s +:+ t) = Str.contains c s || Str.contains c t.
Proof.
  induction s as [|d s IH]; [done|].
  change (String d s +:+ t) with (String d (s +:+ t)). simpl.
  by rewrite IH, orb_assoc.
Qed.

(** The frame pattern is one path component when the format has no
    separator. *)
Lemma frame_pattern_one_component (dir : path) (format : string) :
  Str.contains "/" format = false ->
  Path.join dir ("frame_%06d." +:+ format) = dir ++ ["frame_%06d." +:+ format].
Proof.
  intros Hf. unfold Path.join, Path.parts.
  rewrite split_on_no_sep by (by rewrite contains_app, Hf).
  reflexivity.
Qed.

Lemma name_singleton (n : string) : Path.name [n] = n.
Proof. reflexivity. Qed.

Section Properties.
Context `{E : Env}.

(** What [_setup_ffmpeg_paths] does: it never fails, and it leaves the
    file system, the output and the list of spawned commands alone. *)
Lemma setup_ffmpeg_paths_run (w : World) :
  exists bins w1,
    _setup_ffmpeg_paths w = (Ok bins, w1)
    /\ fs w1 = fs w /\ stdout w1 = stdout w /\ stderr w1 = stderr w
    /\ spawned w1 = spawned w
    /\ (bins = ("ffmpeg", "ffprobe")
        \/ bins = (Path.str (ffmpeg_dir ++ ["ffmpeg.exe"]),
                   Path.str (ffmpeg_dir ++ ["ffprobe.exe"]))).
Proof.
  unfold _setup_ffmpeg_paths. unfold_monad.
  destruct (bool_decide (is_Some (node_at (fs w) ffmpeg_dir)));
    eexists _, _; simpl; repeat split; auto.
Qed.

(** The fields of a constructed extractor. *)
Lemma init_fields (vp od : string) (r : option string) (f : string)
    (w w' : World) (self : VideoFrameExtractor) :
  __init__ vp od r f w = (Ok self, w') ->
  video_path self = resolve vp
  /\ output_dir self = resolve od
  /\ frame_rate self = default_frame_rate r
  /\ format self = normalize_format f.
Proof.
  unfold __init__. unfold bind at 1.
  destruct (_setup_ffmpeg_paths w) as [[bins|e] w1]; [|discriminate].
  unfold bind at 1.
  destruct (_validate_inputs _ _ w1) as [[[]|e] w2]; [|discriminate].
  unfold bind at 1.
  destruct (_create_output_directory _ w2) as [[[]|e] w3]; [|discriminate].
  unfold ret. intros [= <- <-]. done.
Qed.

(** [_validate_inputs] on a path that does not exist: the first check
    raises, nothing is spawned and the world is as it was. *)
Lemma validate_inputs_missing (vp : path) (bin : string) (w : World) :
  node_at (fs w) vp = None ->
  _validate_inputs vp bin w
  = (Raise (Exn FileNotFoundError ("Video file not found: " +:+ Path.str vp)), w).
Proof.
  intros Hnone. unfold _validate_inputs. unfold_monad. rewrite Hnone.
  rewrite bool_decide_eq_false_2; [done|]. by intros [? ?].
Qed.

(** [_validate_inputs] on a regular file goes on to the version check. *)
Lemma validate_inputs_file (vp : path) (bin : string) (w : World) :
  node_at (fs w) vp = Some File ->
  _validate_inputs vp bin w
  = try_except (subprocess_run [bin; "-version"] ;; ret tt)
      (fun e =>
         match cls e with
         | FileNotFoundError => Some (raise (Exn RuntimeError ffmpeg_missing))
         | CalledProcessError => Some (raise (Exn RuntimeError "FFmpeg check failed."))
         | _ => None
         end) w.
Proof.
  intros Hfile. unfold _validate_inputs. unfold bind at 1. unfold exists_.
  rewrite Hfile, bool_decide_eq_true_2 by eauto. simpl.
  unfold bind at 1. unfold is_file. rewrite Hfile, bool_decide_eq_true_2 by done.
  done.
Qed.

(** C4: when the input path does not exist, [main] ends with status 1
    after printing one line, "Error: Input path not found: ...", on the
    error stream; the file system is untouched (so no output directory
    was made), nothing is printed on the output stream and no command is
    run.  The constructor itself checks the input before it makes the
    output directory: called on a missing input it raises
    [FileNotFoundError] and leaves the file system as it was. *)
Theorem missing_input_exits_1_without_output_dir (args : Args) (w : World) :
  node_at (fs w) (resolve (arg_input args)) = None ->
  main args w
  = (Exit 1,
     mkWorld (fs w) (PATH w) (stdout w)
       (stderr w ++ ["Error: Input path not found: "
                       +:+ Path.str (resolve (arg_input args))])
       (spawned w))
  /\ forall od r f, exists w',
       __init__ (arg_input args) od r f w
       = (Raise (Exn FileNotFoundError
                   ("Video file not found: " +:+ Path.str (resolve (arg_input args)))), w')
       /\ fs w' = fs w /\ stdout w' = stdout w /\ spawned w' = spawned w.
Proof.
  intros Hnone. split.
  - unfold main, main_body. unfold_monad. cbv beta. rewrite Hnone.
    rewrite !bool_decide_eq_false_2 by discriminate. cbv beta. rewrite Hnone.
    rewrite !bool_decide_eq_false_2 by discriminate. done.
  - intros od r f. unfold __init__. unfold bind at 1.
    destruct (setup_ffmpeg_paths_run w) as (bins & w1 & -> & Hfs & Hout & Herr & Hsp & _).
    unfold bind at 1. rewrite validate_inputs_missing by (by rewrite Hfs).
    eauto.
Qed.

(** A single-file run whose constructor raises one of the exceptions
    [main] catches: the message is printed and the status is 1. *)
Lemma main_single_file_init_raises (args : Args) (w w' : World) (e : exn) :
  node_at (fs w) (resolve (arg_input args)) = Some File ->
  __init__ (arg_input args) (arg_output args) (arg_fps args) (arg_format args) w
  = (Raise e, w') ->
  main_catches e = true ->
  main args w = (Exit 1, snd (eprint ("Error: " +:+ msg e) w')).
Proof.
  intros Hfile Hinit Hcatch.
  unfold main, main_body. unfold bind at 1. unfold is_dir.
  rewrite Hfile, bool_decide_eq_false_2 by discriminate.
  unfold bind at 1. unfold is_file.
  rewrite Hfile, bool_decide_eq_true_2 by done.
  unfold bind at 1. rewrite Hinit, Hcatch. reflexivity.
Qed.

(** C7 (the claim is amended on what "not invocable" covers): when the
    version check finds neither the bundled ffmpeg nor the one on the
    search path, or finds it failing (the spawn raises
    [FileNotFoundError], or the binary exits with a non-zero status),
    constructing the extractor of an existing regular file fails with
    the [RuntimeError] that reports the binary as missing or as failing
    its check; the only command tried is that version check, and a
    single-file run ends with status 1 after printing that error.  A
    binary that is there and cannot be executed is not among these
    cases: the exception of its spawn is raised as it is. *)
Theorem missing_or_failing_binary_is_a_runtime_error (args : Args) (w : World) :
  node_at (fs w) (resolve (arg_input args)) = Some File ->
  missing_or_failing (Path.str (ffmpeg_dir ++ ["ffmpeg.exe"])) (snd (_setup_ffmpeg_paths w)) ->
  missing_or_failing "ffmpeg" (snd (_setup_ffmpeg_paths w)) ->
  exists m bin w',
    __init__ (arg_input args) (arg_output args) (arg_fps args) (arg_format args) w
    = (Raise (Exn RuntimeError m), w')
    /\ (m = ffmpeg_missing \/ m = "FFmpeg check failed.")
    /\ spawned w' = spawned w ++ [[bin; "-version"]]
    /\ stdout w' = stdout w
    /\ main args w = (Exit 1, snd (eprint ("Error: " +:+ m) w')).
Proof.
  intros Hfile Hb Hs.
  assert (Hinit : exists m bin w',
    __init__ (arg_input args) (arg_output args) (arg_fps args) (arg_format args) w
    = (Raise (Exn RuntimeError m), w')
    /\ (m = ffmpeg_missing \/ m = "FFmpeg check failed.")
    /\ spawned w' = spawned w ++ [[bin; "-version"]]
    /\ stdout w' = stdout w).
  { unfold __init__.
    destruct (setup_ffmpeg_paths_run w)
      as (bins & w1 & Hrun & Hfs & Hout & Herr & Hsp & Hbins).
    rewrite Hrun in Hb, Hs. simpl in Hb, Hs.
    assert (Hn : missing_or_failing (fst bins) w1) by (by destruct Hbins as [-> | ->]).
    clear Hb Hs Hbins. unfold bind at 1. rewrite Hrun.
    unfold bind at 1. rewrite validate_inputs_file by (by rewrite Hfs).
    unfold missing_or_failing in Hn. unfold subprocess_run. unfold_monad.
    destruct (spawn _ _ _) as [e | rc out err m'].
    - rewrite Hn. simpl. eexists _, _, _. split; [reflexivity|].
      simpl. rewrite Hsp, Hout. eauto.
    - rewrite (proj2 (Z.eqb_neq rc 0) Hn). simpl.
      eexists _, _, _. split; [reflexivity|].
      simpl. rewrite Hsp, Hout. eauto. }
  destruct Hinit as (m & bin & w' & Hinit & Hm & Hsp & Hout).
  exists m, bin, w'. repeat split; try done.
  by apply (main_single_file_init_raises args w w' (Exn RuntimeError m)).
Qed.

(** *** What each step does to the list of spawned commands *)

Lemma get_video_info_spawned (self : VideoFrameExtractor) (w : World) :
  spawned (snd (_get_video_info self w)) = spawned w ++ [ffprobe_cmd self].
Proof.
  unfold _get_video_info, probe_and_parse, subprocess_run. unfold_monad.
  repeat (case_match; simplify_eq/=; try done).
Qed.

Lemma announce_spawned (self : VideoFrameExtractor) (verbose : bool)
    (info : VideoInfo F) (w : World) :
  spawned (snd (announce self verbose info w)) = spawned w
  /\ fs (snd (announce self verbose info w)) = fs w
  /\ PATH (snd (announce self verbose info w)) = PATH w.
Proof.
  unfold announce. unfold_monad.
  repeat (case_match; simplify_eq/=; try done).
Qed.

Lemma run_ffmpeg_spawned (self : VideoFrameExtractor) (verbose : bool) (w : World) :
  spawned (snd (run_ffmpeg self verbose w)) = spawned w ++ [ffmpeg_cmd self].
Proof.
  unfold run_ffmpeg, popen_communicate, print_encoded. unfold_monad.
  repeat (case_match; simplify_eq/=; try done).
Qed.

Lemma extract_frames_unfold (self : VideoFrameExtractor) (verbose : bool) (w : World) :
  extract_frames self verbose w
  = match _get_video_info self w with
    | (Ok info, w1) =>
        match announce self verbose info w1 with
        | (Ok _, w2) => run_ffmpeg self verbose w2
        | (Raise e, w2) => (Raise e, w2)
        end
    | (Raise e, w1) => (Raise e, w1)
    end.
Proof. reflexivity. Qed.

(** *** The probe and its failures *)

(** A failure of one of the three classes the probe catches is absorbed:
    a warning is printed and the zero dictionary returned. *)
Lemma probe_failure_absorbed (self : VideoFrameExtractor) (w : World) (e : exn) :
  spawn (ffprobe_cmd self) (PATH w) (fs w) = SpawnRaise e ->
  probe_catches e = true ->
  _get_video_info self w
  = (Ok zero_info,
     mkWorld (fs w) (PATH w)
       (stdout w ++ ["Warning: Could not retrieve video information"])
       (stderr w) (spawned w ++ [ffprobe_cmd self])).
Proof.
  intros Hspawn Hcatch.
  unfold _get_video_info, probe_and_parse, subprocess_run. unfold_monad.
  rewrite Hspawn, Hcatch. reflexivity.
Qed.

(** An exception of any other class raised by the spawn of the probe
    leaves [extract_frames]: nothing is spawned after the probe. *)
Lemma probe_exception_escapes (self : VideoFrameExtractor) (verbose : bool)
    (w : World) (e : exn) :
  spawn (ffprobe_cmd self) (PATH w) (fs w) = SpawnRaise e ->
  probe_catches e = false ->
  extract_frames self verbose w
  = (Raise e, record_spawn (ffprobe_cmd self) (fs w) w).
Proof.
  intros Hspawn Hcatch. rewrite extract_frames_unfold.
  unfold _get_video_info, probe_and_parse, subprocess_run. unfold_monad.
  rewrite Hspawn, Hcatch. reflexivity.
Qed.

(** A frame-rate line that is a ratio with denominator zero makes [eval]
    raise [ZeroDivisionError], which leaves [extract_frames] as well. *)
Lemma zero_denominator_escapes (self : VideoFrameExtractor) (verbose : bool)
    (w : World) (out err : string) (m : filesystem)
    (l0 l1 l2 l3 : string) (rest : list string) (d : F) (n : Z) :
  spawn (ffprobe_cmd self) (PATH w) (fs w) = SpawnExit 0 out err m ->
  Str.split_on (ascii_of_nat 10) (Str.strip out) = l0 :: l1 :: l2 :: l3 :: rest ->
  l0 <> "" -> py_float l0 = Ok d ->
  parse_ratio l1 = Some (n, 0) ->
  extract_frames self verbose w
  = (Raise (Exn ZeroDivisionError "division by zero"),
     record_spawn (ffprobe_cmd self) m w).
Proof.
  intros Hspawn Hlines H0 Hd Hr.
  assert (Str.contains "/" l1 = true) as Hc.
  { unfold parse_ratio in Hr.
    destruct (Str.split_on "/" l1) as [|a [|b [|? ?]]] eqn:Hs; try done.
    by apply split_on_two_contains in Hs. }
  rewrite extract_frames_unfold.
  unfold _get_video_info, probe_and_parse, subprocess_run. unfold_monad.
  rewrite Hspawn. simpl. rewrite Hlines. cbv beta.
  rewrite (proj2 (String.eqb_neq l0 "") H0), Hd. simpl.
  rewrite Hc. unfold py_eval. rewrite Hr. reflexivity.
Qed.

(** C2: the command line of the extraction is the extraction binary,
    [-i] and the string of the resolved input path, [-vf] and
    [fps=<rate>], [-start_number] and [0], and the string of the path
    [output_dir / "frame_%06d.<format>"]; for a format without a
    separator that path is the output directory followed by the one
    component [frame_%06d.<format>].  This is the command
    [extract_frames] runs: after the probe it spawns nothing or exactly
    this command, and exactly this command whenever it returns. *)
Theorem extraction_command_line (self : VideoFrameExtractor) (verbose : bool) (w : World) :
  ffmpeg_cmd self
  = [ ffmpeg_bin self; "-i"; Path.str (video_path self);
      "-vf"; "fps=" +:+ frame_rate self; "-start_number"; "0";
      Path.str (Path.join (output_dir self) ("frame_%06d." +:+ format self)) ]
  /\ (Str.contains "/" (format self) = false ->
       Path.join (output_dir self) ("frame_%06d." +:+ format self)
       = output_dir self ++ ["frame_%06d." +:+ format self])
  /\ exists tail,
       spawned (snd (extract_frames self verbose w))
       = spawned w ++ ffprobe_cmd self :: tail
       /\ (tail = [] \/ tail = [ffmpeg_cmd self])
       /\ (forall b, fst (extract_frames self verbose w) = Ok b ->
             tail = [ffmpeg_cmd self]).
Proof.
  split; [reflexivity|]. split; [apply frame_pattern_one_component|].
  rewrite extract_frames_unfold.
  pose proof (get_video_info_spawned self w) as Hprobe.
  destruct (_get_video_info self w) as [[info|e] w1]; simpl in Hprobe.
  - pose proof (announce_spawned self verbose info w1) as (Hann & _ & _).
    destruct (announce self verbose info w1) as [[[]|e] w2]; simpl in Hann.
    + exists [ffmpeg_cmd self].
      rewrite run_ffmpeg_spawned, Hann, Hprobe, <- app_assoc. auto.
    + exists []. simpl. rewrite Hann, Hprobe. split; [done|]. split; [auto|]. done.
  - exists []. simpl. rewrite Hprobe. split; [done|]. split; [auto|]. done.
Qed.

(** C8: for an extractor built from the parsed options, the rate is
    the text "30" when [--fps] is absent (or given as the empty text)
    and the given text otherwise; the format is the option's text
    (default "png") lower-cased as [str.lower] does -- on a text of
    ASCII characters, character by character, the letters A-Z folded --
    and with its leading dots removed; and the filter argument of the
    extraction command is [fps=] followed by that rate, unchanged. *)
Theorem rate_and_format_options
    (input output : string) (fps format_opt : option string) (quiet : bool)
    (w w' : World) (self : VideoFrameExtractor) :
  let args := parse_args input output fps format_opt quiet in
  __init__ (arg_input args) (arg_output args) (arg_fps args) (arg_format args) w
  = (Ok self, w') ->
  frame_rate self
  = match fps with
    | None => "30"
    | Some r => if String.eqb r "" then "30" else r
    end
  /\ format self = Str.lstrip_dots (py_lower (default "png" format_opt))
  /\ (format_opt = None -> format self = "png")
  /\ (forall s, format self <> String "." s)
  /\ (exists k, py_lower (default "png" format_opt) = Str.dots k +:+ format self)
  /\ (Str.is_ascii (default "png" format_opt) = true ->
      forall i, String.get i (py_lower (default "png" format_opt))
                = option_map Str.lower_ascii (String.get i (default "png" format_opt)))
  /\ (Str.is_ascii (default "png" format_opt) = false ->
      py_lower (default "png" format_opt) = unicode_lower (default "png" format_opt))
  /\ ffmpeg_cmd self !! 4%nat = Some ("fps=" +:+ frame_rate self)
  /\ (forall r, fps = Some r -> r <> "" ->
        ffmpeg_cmd self !! 4%nat = Some ("fps=" +:+ r)).
Proof.
  intros args Hinit. apply init_fields in Hinit as (_ & _ & Hrate & Hfmt).
  simpl in Hrate, Hfmt. unfold normalize_format in Hfmt.
  repeat split.
  - rewrite Hrate. by destruct fps.
  - exact Hfmt.
  - intros ->. by rewrite Hfmt.
  - intros s. rewrite Hfmt. apply lstrip_dots_no_leading_dot.
  - rewrite Hfmt. apply lstrip_dots_only_dots.
  - intros Ha i. unfold py_lower. rewrite Ha. apply lower_get.
  - intros Ha. unfold py_lower. by rewrite Ha.
  - intros r -> Hr. simpl. rewrite Hrate. simpl.
    by rewrite (proj2 (String.eqb_neq r "") Hr).
Qed.

(** C6: a probe output of four well-formed lines is returned as it
    reads: the duration is the float of the first line, the frame rate
    the float of the second line or the quotient of its numerator and
    denominator, the width and the height the integers of the third and
    the fourth line. *)
Theorem probe_output_is_parsed
    (self : VideoFrameExtractor) (w : World) (out err : string) (m : filesystem)
    (l0 l1 l2 l3 : string) (rest : list string) (d f : F) (wd ht : Z) :
  spawn (ffprobe_cmd self) (PATH w) (fs w) = SpawnExit 0 out err m ->
  Str.split_on (ascii_of_nat 10) (Str.strip out) = l0 :: l1 :: l2 :: l3 :: rest ->
  l0 <> "" -> py_float l0 = Ok d ->
  fps_reads l1 f ->
  l2 <> "" -> py_int l2 = Ok wd ->
  l3 <> "" -> py_int l3 = Ok ht ->
  fst (_get_video_info self w)
  = Ok {| duration := NFloat d; fps := PNum (NFloat f); width := wd; height := ht |}.
Proof.
  intros Hspawn Hlines H0 Hd Hf H2 Hw H3 Hh.
  assert (Hfps : (if Str.contains "/" l1 then py_eval l1
                  else fmap_res (fun x => PNum (NFloat x)) (py_float l1))
                 = Ok (PNum (NFloat f))).
  { destruct Hf as [l f Hc Hfl | l n dn q Hr Hdn Hq].
    - by rewrite Hc, Hfl.
    - assert (Str.contains "/" l = true) as ->.
      { unfold parse_ratio in Hr.
        destruct (Str.split_on "/" l) as [|a [|b [|? ?]]] eqn:Hs; try done.
        by apply split_on_two_contains in Hs. }
      unfold py_eval. rewrite Hr, (proj2 (Z.eqb_neq dn 0) Hdn), Hq. done. }
  unfold _get_video_info, probe_and_parse, subprocess_run. unfold_monad.
  rewrite Hspawn. simpl. rewrite Hlines. cbv beta.
  rewrite (proj2 (String.eqb_neq l0 "") H0), Hd. simpl.
  rewrite Hfps. simpl.
  rewrite (proj2 (String.eqb_neq l2 "") H2), Hw. simpl.
  rewrite (proj2 (String.eqb_neq l3 "") H3), Hh. done.
Qed.

(** *** The extraction step *)

Lemma glob_frames_plain (m : filesystem) (dir : path) (format : string) :
  plain_format format = true ->
  NoDup (glob_frames m dir format)
  /\ forall q, q ∈ glob_frames m dir format <->
               is_Some (m !! q) /\ Path.child_of dir q = true
               /\ frame_name format (Path.name q) = true.
Proof.
  intros Hplain. unfold glob_frames. rewrite Hplain. split.
  - apply NoDup_filter, NoDup_fst_map_to_list.
  - intros q. rewrite list_elem_of_filter, elem_of_keys, andb_True, !Is_true_true.
    tauto.
Qed.

(** *** The batch driver *)

Lemma header_run (args : Args) (total idx : nat) (video_file : path) (w : World) :
  when (negb (arg_quiet args)) (print (item_header total idx video_file)) w
  = (Ok tt, snd (when (negb (arg_quiet args))
                   (print (item_header total idx video_file)) w)).
Proof. unfold when, print, ret. by destruct (arg_quiet args). Qed.

Lemma batch_item_unfold (args : Args) (output_base : path) (total idx : nat)
    (video_file : path) (failed_videos : list string) (w : World) :
  batch_item args output_base total idx video_file failed_videos w
  = match process_video args output_base video_file
            (snd (when (negb (arg_quiet args))
                    (print (item_header total idx video_file)) w)) with
    | (Ok success, w') =>
        (Ok (if success : bool then failed_videos
             else failed_videos ++ [Path.name video_file]), w')
    | (Raise e, w') =>
        if main_catches e
        then (Ok (failed_videos ++ [Path.name video_file]),
              snd (eprint ("Error processing " +:+ Path.name video_file
                            +:+ ": " +:+ msg e) w'))
        else (Raise e, w')
    end.
Proof.
  unfold batch_item. unfold bind at 1. rewrite header_run.
  unfold try_except, bind, ret, eprint.
  destruct (process_video _ _ _ _) as [[[]|e] w']; try done.
  by destruct (main_catches e).
Qed.

(** An item that ends is an iteration of the loop that goes through,
    with the name of the video appended when it failed. *)
Lemma batch_item_ends (args : Args) (output_base : path) (total idx : nat)
    (video_file : path) (w w1 : World) (ok : bool) (failed_videos : list string) :
  item_ends args output_base total idx video_file w ok w1 ->
  batch_item args output_base total idx video_file failed_videos w
  = (Ok (failed_videos ++ (if ok then [] else [Path.name video_file])), w1).
Proof.
  intros Hends. rewrite batch_item_unfold.
  destruct Hends as [w' Hrun | w' Hrun | e w' Hrun Hcatch]; rewrite Hrun.
  - by rewrite app_nil_r.
  - done.
  - by rewrite Hcatch.
Qed.

(** An iteration ends the item, or it lets through an exception that is
    none of the three classes the driver catches. *)
Lemma batch_item_ends_or_escapes (args : Args) (output_base : path) (total idx : nat)
    (video_file : path) (failed_videos : list string) (w : World) :
  (exists ok w1, item_ends args output_base total idx video_file w ok w1)
  \/ (exists e w1,
        batch_item args output_base total idx video_file failed_videos w
        = (Raise e, w1) /\ main_catches e = false).
Proof.
  rewrite batch_item_unfold.
  destruct (process_video _ _ _ _) as [[[]|e] w'] eqn:Hrun.
  - left. eexists _, _. by apply item_succeeded.
  - left. eexists _, _. by apply item_failed_extraction.
  - destruct (main_catches e) eqn:Hcatch.
    + left. eexists _, _. by eapply item_failed_exception.
    + right. eauto.
Qed.

(** The loop follows a batch run. *)
Lemma batch_loop_run (args : Args) (output_base : path) (total idx : nat)
    (video_files : list path) (w w' : World) (failed : list string) :
  batch_run args output_base total idx video_files w failed w' ->
  forall failed_videos,
    batch_loop args output_base total idx video_files failed_videos w
    = (Ok (failed_videos ++ failed), w').
Proof.
  induction 1 as [idx w | idx f rest w w1 w2 ok failed Hitem _ IH];
    intros acc; simpl.
  - by rewrite app_nil_r.
  - unfold bind. rewrite (batch_item_ends _ _ _ _ _ _ _ _ acc Hitem).
    rewrite IH. by rewrite <- app_assoc.
Qed.

(** The loop processes every video, or an exception outside the three
    caught classes ends it. *)
Lemma batch_loop_runs_or_escapes (args : Args) (output_base : path) (total : nat)
    (video_files : list path) :
  forall idx failed_videos w,
    (exists failed w',
        batch_run args output_base total idx video_files w failed w')
    \/ (exists e w',
          batch_loop args output_base total idx video_files failed_videos w
          = (Raise e, w') /\ main_catches e = false).
Proof.
  induction video_files as [|f rest IH]; intros idx acc w.
  - left. eexists _, _. constructor.
  - destruct (batch_item_ends_or_escapes args output_base total idx f acc w)
      as [(ok & w1 & Hitem) | (e & w1 & Hraise & Hcatch)].
    + destruct (IH (S idx) (acc ++ (if ok then [] else [Path.name f])) w1)
        as [(failed & w2 & Hrun) | (e & w2 & Hraise & Hcatch)].
      * left. eexists _, _. econstructor; eassumption.
      * right. exists e, w2. split; [|done]. simpl. unfold bind.
        by rewrite (batch_item_ends _ _ _ _ _ _ _ _ acc Hitem).
    + right. exists e, w1. split; [|done]. simpl. unfold bind. by rewrite Hraise.
Qed.

(** The failed names are names of the videos, in their order. *)
Lemma batch_run_failed_names (args : Args) (output_base : path) (total idx : nat)
    (video_files : list path) (w w' : World) (failed : list string) :
  batch_run args output_base total idx video_files w failed w' ->
  sublist failed (Path.name <$> video_files).
Proof.
  induction 1 as [|idx f rest w w1 w2 [] failed _ _ IH]; simpl.
  - constructor.
  - by apply sublist_cons.
  - by apply sublist_skip.
Qed.

Lemma print_summary_run (output_base : path) (total : nat)
    (failed : list string) (w : World) :
  print_summary output_base total failed w
  = (Ok tt, mkWorld (fs w) (PATH w)
              (stdout w ++ summary_lines output_base total failed)
              (stderr w) (spawned w)).
Proof.
  unfold print_summary, summary_lines. unfold_monad. simpl.
  destruct (bool_decide (failed = [])); simpl; by rewrite <- !app_assoc.
Qed.

(** A batch none of whose videos raises an exception outside the three
    caught classes is a batch in which every video is processed. *)
Lemma items_caught_run (args : Args) (output_base : path) (total : nat)
    (video_files : list path) :
  forall idx w,
    items_caught args output_base total idx video_files w ->
    exists failed w1, batch_run args output_base total idx video_files w failed w1.
Proof.
  induction video_files as [|f rest IH]; intros idx w Hcaught; simpl in Hcaught.
  - eexists _, _. constructor.
  - destruct (process_video _ _ _ _) as [[success|e] w'] eqn:Hrun.
    + destruct (IH _ _ Hcaught) as (failed & w1 & Hrest).
      destruct success.
      * eexists _, _. eapply (batch_run_cons _ _ _ _ _ _ _ _ _ true); [|exact Hrest].
        by apply item_succeeded.
      * eexists _, _. eapply (batch_run_cons _ _ _ _ _ _ _ _ _ false); [|exact Hrest].
        by apply item_failed_extraction.
    + destruct Hcaught as [Hcatch Hcaught].
      destruct (IH _ _ Hcaught) as (failed & w1 & Hrest).
      eexists _, _. eapply (batch_run_cons _ _ _ _ _ _ _ _ _ false); [|exact Hrest].
      by eapply item_failed_exception.
Qed.


End Properties.

(** * The properties on the concrete environment *)

Section Concrete.
Import Demo.
Local Existing Instance demo_env.

(** The folder of the four extensions: the two videos, in order. *)
Example find_video_files_mixed_folder :
  find_video_files_in mixed_folder ["videos"]
  = [["videos"; "a.mp4"]; ["videos"; "b.mov"]].
Proof. vm_compute. reflexivity. Qed.

(** The order of paths is by component: the file [a/x.mp4] comes before
    the file [a.mp4], though its string comes after. *)
Example path_order_is_by_component :
  Path.leb ["v"; "a"; "x.mp4"] ["v"; "a.mp4"] = true
  /\ String.leb (Path.str ["v"; "a"; "x.mp4"]) (Path.str ["v"; "a.mp4"]) = false.
Proof. split; vm_compute; reflexivity. Qed.

(** Names in capital and mixed letters: the two videos, and the file
    whose suffix has the Kelvin sign, which [str.lower] maps to [k]. *)
Example find_video_files_mixed_case_folder :
  find_video_files_in Cases.mixed_case_folder ["videos"]
  = [["videos"; "A.MP4"]; ["videos"; "b.MoV"];
     ["videos"; "c.m" +:+ Cases.kelvin +:+ "v"]].
Proof. vm_compute. reflexivity. Qed.

Lemma find_video_files_witness :
  ["videos"; "A.MP4"] ∈ find_video_files_in Cases.mixed_case_folder ["videos"]
  /\ ["videos"; "b.MoV"] ∈ find_video_files_in Cases.mixed_case_folder ["videos"]
  /\ (["videos"; "notes.TXT"] ∉ find_video_files_in Cases.mixed_case_folder ["videos"])
  /\ (["videos"; "cover.jpg"] ∉ find_video_files_in Cases.mixed_case_folder ["videos"])
  /\ StronglySorted Path.le (find_video_files_in Cases.mixed_case_folder ["videos"]).
Proof.
  destruct (find_video_files_selects_and_sorts Cases.mixed_case_folder ["videos"])
    as (_ & _ & Hsorted & _ & Hext).
  split; [apply (Hext ["videos"; "A.MP4"]); [reflexivity | reflexivity |];
          vm_compute; repeat first [by left | right]|].
  split; [apply (Hext ["videos"; "b.MoV"]); [reflexivity | reflexivity |];
          vm_compute; repeat first [by left | right]|].
  split; [apply (Hext ["videos"; "notes.TXT"]); [reflexivity | reflexivity |];
          vm_compute; repeat first [by left | right]|].
  split; [apply (Hext ["videos"; "cover.jpg"]); [reflexivity | reflexivity |];
          vm_compute; repeat first [by left | right]|].
  exact Hsorted.
Defined.

(** The order of the result is not the order of the full path strings:
    beside a directory [a], the file [a/x.mp4] comes first, before
    [a-b.mp4] and [a.mp4], though its string is the last of the
    three. *)
Lemma sorted_by_component_not_by_path_string :
  find_video_files_in Cases.order_folder ["v"]
  = [["v"; "a"; "x.mp4"]; ["v"; "a-b.mp4"]; ["v"; "a.mp4"]]
  /\ Path.str <$> find_video_files_in Cases.order_folder ["v"]
     = ["/v/a/x.mp4"; "/v/a-b.mp4"; "/v/a.mp4"]
  /\ String.leb "/v/a/x.mp4" "/v/a-b.mp4" = false
  /\ String.leb "/v/a/x.mp4" "/v/a.mp4" = false.
Proof. repeat split; vm_compute; reflexivity. Qed.

Lemma extraction_command_witness :
  ffmpeg_cmd extractor
  = [ "ffmpeg"; "-i"; "/videos/a.mp4"; "-vf"; "fps=30"; "-start_number"; "0";
      "/out/frame_%06d.png" ]
  /\ spawned (snd (extract_frames extractor true (world mixed_folder "/usr/bin")))
     = [ffprobe_cmd extractor; ffmpeg_cmd extractor].
Proof.
  destruct (extraction_command_line extractor true (world mixed_folder "/usr/bin"))
    as (Hcmd & _ & tail & Hspawned & _ & Htail).
  split; [rewrite Hcmd; reflexivity|].
  rewrite Hspawned, (Htail true); [reflexivity|].
  vm_compute. reflexivity.
Defined.

Lemma missing_input_witness :
  main (args "/videos/nothing.mp4" "/out" false) (world mixed_folder "/usr/bin")
  = (Exit 1,
     mkWorld mixed_folder "/usr/bin" []
       ["Error: Input path not found: /videos/nothing.mp4"] [])
  /\ forall od r f, exists w',
       __init__ "/videos/nothing.mp4" od r f (world mixed_folder "/usr/bin")
       = (Raise (Exn FileNotFoundError "Video file not found: /videos/nothing.mp4"), w')
       /\ fs w' = mixed_folder /\ stdout w' = [] /\ spawned w' = [].
Proof.
  refine (missing_input_exits_1_without_output_dir
            (args "/videos/nothing.mp4" "/out" false) (world mixed_folder "/usr/bin") _).
  vm_compute. reflexivity.
Defined.

Lemma missing_binary_witness :
  exists m bin w',
    __init__ "/videos/a.mp4" "/out" None "png" (world mixed_folder "")
    = (Raise (Exn RuntimeError m), w')
    /\ (m = ffmpeg_missing \/ m = "FFmpeg check failed.")
    /\ spawned w' = [] ++ [[bin; "-version"]]
    /\ stdout w' = []
    /\ main (args "/videos/a.mp4" "/out" false) (world mixed_folder "")
       = (Exit 1, snd (eprint ("Error: " +:+ m) w')).
Proof.
  refine (missing_or_failing_binary_is_a_runtime_error
            (args "/videos/a.mp4" "/out" false) (world mixed_folder "") _ _ _);
    vm_compute; reflexivity.
Defined.

(** That run, evaluated: the one command tried and the error printed. *)
Example missing_binary_run :
  main (args "/videos/a.mp4" "/out" false) (world mixed_folder "")
  = (Exit 1,
     mkWorld mixed_folder "" [] ["Error: " +:+ ffmpeg_missing] [["ffmpeg"; "-version"]]).
Proof. vm_compute. reflexivity. Qed.

Lemma rate_and_format_witness :
  exists self w',
    __init__ "/videos/a.mp4" "/out" (Some "15") ".JPG" (world mixed_folder "/usr/bin")
    = (Ok self, w')
    /\ frame_rate self = "15"
    /\ format self = "jpg"
    /\ ffmpeg_cmd self !! 4%nat = Some "fps=15".
Proof.
  eexists _, _. split; [vm_compute; reflexivity|].
  pose proof (rate_and_format_options "/videos/a.mp4" "/out" (Some "15") (Some ".JPG")
                false (world mixed_folder "/usr/bin") _ _ eq_refl)
    as (Hrate & Hfmt & _ & _ & _ & _ & _ & _ & Hcmd).
  split; [exact Hrate|]. split; [exact Hfmt|].
  apply (Hcmd "15"); [reflexivity | discriminate].
Defined.

Lemma probe_output_witness :
  fst (_get_video_info extractor (world mixed_folder "/usr/bin"))
  = Ok {| duration := NFloat 10.5%float;
          fps := PNum (NFloat (PrimFloat.div 30000 1001));
          width := 1920; height := 1080 |}.
Proof.
  refine (probe_output_is_parsed extractor (world mixed_folder "/usr/bin")
            _ _ _ "10.5" "30000/1001" "1920" "1080" [] _ _ _ _
            _ _ _ _ _ _ _ _ _).
  - vm_compute. reflexivity.
  - vm_compute. reflexivity.
  - discriminate.
  - vm_compute. reflexivity.
  - apply (fps_ratio "30000/1001" 30000 1001); [reflexivity | discriminate |].
    vm_compute. reflexivity.
  - discriminate.
  - vm_compute. reflexivity.
  - discriminate.
  - vm_compute. reflexivity.
Defined.

(** The count on that file system: the three frames. *)
Example extracted_three_frames :
  glob_frames extracted ["out"] "png"
  = [ ["out"; "frame_000002.png"]; ["out"; "frame_000001.png"];
      ["out"; "frame_000000.png"] ]
  /\ fst (extract_frames extractor true (world mixed_folder "/usr/bin")) = Ok true
  /\ List.last (stdout (snd (extract_frames extractor true (world mixed_folder "/usr/bin")))) ""
     = "Frames saved to: /out"
  /\ In (extracted_line 3)
       (stdout (snd (extract_frames extractor true (world mixed_folder "/usr/bin")))).
Proof. vm_compute. repeat split; auto 20. Qed.


(** That batch, evaluated: the second video fails, the other two have
    their frames, the status is 1 and the summary names the one failed
    video. *)
Example batch_three_videos :
  let r := main (args "/videos" "/out" false) (world three_videos "/usr/bin") in
  fst r = Exit 1
  /\ In "Successfully processed: 2/3 videos" (stdout (snd r))
  /\ In "Failed videos: broken.mp4" (stdout (snd r))
  /\ fs (snd r) !! ["out"; "a"; "frame_000000.png"] = Some File
  /\ fs (snd r) !! ["out"; "c"; "frame_000000.png"] = Some File
  /\ fs (snd r) !! ["out"; "broken"; "frame_000000.png"] = None.
Proof. vm_compute. repeat split; auto 40. Qed.

(** C1 (the code departs from the claim): two probe failures reach the
    caller of [extract_frames] and no extraction command is run.  With
    ffmpeg on the search path and ffprobe not, the spawn of the probe
    raises [FileNotFoundError], which the probe does not catch: [main]
    prints it as an error and exits with status 1 after the version
    check and the probe alone.  With a probe output whose frame rate is
    [0/0], [eval] raises [ZeroDivisionError], which neither the probe
    nor [main] catches: the run ends in a traceback, again after the
    version check and the probe alone. *)
Theorem probe_failure_reaches_the_caller :
  main (args "/videos/a.mp4" "/out" false) (world mixed_folder "/usr/ffmpeg-only/bin")
  = (Exit 1,
     mkWorld (<[ ["out"] := Dir ]> mixed_folder) "/usr/ffmpeg-only/bin"
       ["Output directory: /out"]
       ["Error: [Errno 2] No such file or directory: 'ffprobe'"]
       [["ffmpeg"; "-version"]; ffprobe_cmd extractor])
  /\ main (args "/videos/zero.mp4" "/out" false) (world zero_rate_folder "/usr/bin")
     = (Traceback (Exn ZeroDivisionError "division by zero"),
        mkWorld (<[ ["out"] := Dir ]> zero_rate_folder) "/usr/bin"
          ["Output directory: /out"] []
          [["ffmpeg"; "-version"];
           ffprobe_cmd {| video_path := ["videos"; "zero.mp4"]; output_dir := ["out"];
                          frame_rate := "30"; format := "png";
                          ffmpeg_bin := "ffmpeg"; ffprobe_bin := "ffprobe" |}]).
Proof. split; vm_compute; reflexivity. Qed.

End Concrete.

(** * Further properties of the program *)

Section Coverage.
Context `{E : Env}.

(** ** The probe *)

(** X1: whatever the probing binary does, [_get_video_info] lets no
    exception of the three classes it names through; it leaves the
    search path and the error stream alone, and prints nothing or the
    one warning. *)
Theorem probe_raises_no_caught_class (self : VideoFrameExtractor) (w : World) :
  match fst (_get_video_info self w) with
  | Raise e => probe_catches e = false
  | Ok _ => True
  end
  /\ PATH (snd (_get_video_info self w)) = PATH w
  /\ stderr (snd (_get_video_info self w)) = stderr w
  /\ (stdout (snd (_get_video_info self w)) = stdout w
      \/ stdout (snd (_get_video_info self w))
         = stdout w ++ ["Warning: Could not retrieve video information"]).
Proof.
  unfold _get_video_info, probe_and_parse, subprocess_run. unfold_monad.
  repeat (case_match; simplify_eq/=; try done); repeat split; auto.
Qed.

(** [announce] on a dictionary whose duration is falsy. *)
Lemma announce_without_duration (self : VideoFrameExtractor) (verbose : bool)
    (info : VideoInfo F) (w : World) :
  truthy (duration info) = false ->
  announce self verbose info w
  = (Ok tt,
     mkWorld (fs w) (PATH w)
       (stdout w ++ (if verbose
                     then [ "Processing video: " +:+ Path.name (video_path self);
                            "Extracting frames at " +:+ frame_rate self
                              +:+ " fps as ." +:+ format self +:+ "..." ]
                     else []))
       (stderr w) (spawned w)).
Proof.
  intros Hd. unfold announce. unfold_monad. rewrite Hd.
  destruct verbose; simpl.
  - by rewrite <- app_assoc.
  - rewrite app_nil_r. by destruct w.
Qed.

(** X2: when the body of the probe raises an exception of one of the
    three classes (the spawn fails so, the binary exits with a non-zero
    status, or a line does not parse), the probe prints its warning and
    returns the zero dictionary, and [extract_frames] goes on to the
    extraction exactly as it does after a probe without duration: the
    commands spawned are the probe and then the extraction. *)
Theorem caught_probe_failure_still_extracts
    (self : VideoFrameExtractor) (verbose : bool) (w w0 : World) (e : exn) :
  probe_and_parse self w = (Raise e, w0) ->
  probe_catches e = true ->
  let w1 := snd (print "Warning: Could not retrieve video information" w0) in
  _get_video_info self w = (Ok zero_info, w1)
  /\ extract_frames self verbose w
     = run_ffmpeg self verbose (snd (announce self verbose zero_info w1))
  /\ spawned (snd (extract_frames self verbose w))
     = spawned w ++ [ffprobe_cmd self; ffmpeg_cmd self].
Proof.
  intros Hbody Hcatch w1.
  assert (Hinfo : _get_video_info self w = (Ok zero_info, w1)).
  { unfold _get_video_info. unfold bind at 1. unfold try_except.
    rewrite Hbody, Hcatch. reflexivity. }
  assert (Hrun : extract_frames self verbose w
                 = run_ffmpeg self verbose (snd (announce self verbose zero_info w1))).
  { rewrite extract_frames_unfold, Hinfo.
    by rewrite (announce_without_duration self verbose zero_info w1). }
  split; [exact Hinfo|]. split; [exact Hrun|].
  rewrite Hrun, run_ffmpeg_spawned.
  destruct (announce_spawned self verbose zero_info w1) as (-> & _ & _).
  pose proof (get_video_info_spawned self w) as Hsp. rewrite Hinfo in Hsp.
  change (spawned w1 = spawned w ++ [ffprobe_cmd self]) in Hsp.
  rewrite Hsp, <- app_assoc. reflexivity.
Qed.

(** X3: a probe that succeeds with fewer than four lines of output
    gives the zero dictionary without any warning. *)
Theorem short_probe_output_gives_zero_silently
    (self : VideoFrameExtractor) (w : World) (out err : string) (m : filesystem) :
  spawn (ffprobe_cmd self) (PATH w) (fs w) = SpawnExit 0 out err m ->
  (length (Str.split_on (ascii_of_nat 10) (Str.strip out)) < 4)%nat ->
  _get_video_info self w
  = (Ok zero_info, mkWorld m (PATH w) (stdout w) (stderr w)
                     (spawned w ++ [ffprobe_cmd self])).
Proof.
  intros Hspawn Hlen.
  unfold _get_video_info, probe_and_parse, subprocess_run. unfold_monad.
  rewrite Hspawn. simpl.
  destruct (Str.split_on _ _) as [|l0 [|l1 [|l2 [|l3 rest]]]]; try done.
  simpl in Hlen. lia.
Qed.

End Coverage.

(** ** The constructor *)

Section Constructor.
Context `{E : Env}.

(** [__init__] step by step. *)
Lemma init_unfold (vp od : string) (r : option string) (f : string) (w : World) :
  __init__ vp od r f w
  = match _setup_ffmpeg_paths w with
    | (Ok bins, w1) =>
        match _validate_inputs (resolve vp) (fst bins) w1 with
        | (Ok _, w2) =>
            match _create_output_directory (resolve od) w2 with
            | (Ok _, w3) =>
                (Ok {| video_path := resolve vp; output_dir := resolve od;
                       frame_rate := default_frame_rate r;
                       format := normalize_format f;
                       ffmpeg_bin := fst bins; ffprobe_bin := snd bins |}, w3)
            | (Raise e, w3) => (Raise e, w3)
            end
        | (Raise e, w2) => (Raise e, w2)
        end
    | (Raise e, w1) => (Raise e, w1)
    end.
Proof. reflexivity. Qed.

Lemma validate_inputs_dir (vp : path) (bin : string) (w : World) :
  node_at (fs w) vp = Some Dir ->
  _validate_inputs vp bin w
  = (Raise (Exn ValueError ("Input path is not a file: " +:+ Path.str vp)), w).
Proof.
  intros Hdir. unfold _validate_inputs. unfold bind at 1. unfold exists_.
  rewrite Hdir, bool_decide_eq_true_2 by eauto. simpl.
  unfold bind at 1. unfold is_file. by rewrite Hdir.
Qed.

(** X4: the constructor on a path that is a directory raises
    [ValueError] before anything is run or created: the file system,
    the output and the list of spawned commands are as they were. *)
Theorem init_on_a_directory_is_a_value_error
    (vp od : string) (r : option string) (f : string) (w : World) :
  node_at (fs w) (resolve vp) = Some Dir ->
  exists w',
    __init__ vp od r f w
    = (Raise (Exn ValueError ("Input path is not a file: " +:+ Path.str (resolve vp))), w')
    /\ fs w' = fs w /\ stdout w' = stdout w /\ stderr w' = stderr w
    /\ spawned w' = spawned w.
Proof.
  intros Hdir. rewrite init_unfold.
  destruct (setup_ffmpeg_paths_run w) as (bins & w1 & -> & Hfs & Hout & Herr & Hsp & _).
  rewrite validate_inputs_dir by (by rewrite Hfs).
  eexists. split; [reflexivity|]. auto.
Qed.

(** X5: an exception of the version check that is neither a
    [FileNotFoundError] nor a [CalledProcessError] (a permission error,
    say) is not translated: the constructor raises it as it is, and a
    single-file run that [main] does not catch it in ends in a
    traceback. *)
Theorem version_check_other_exception_propagates
    (args : Args) (w w1 : World) (bins : string * string) (e : exn) :
  node_at (fs w) (resolve (arg_input args)) = Some File ->
  _setup_ffmpeg_paths w = (Ok bins, w1) ->
  spawn [fst bins; "-version"] (PATH w1) (fs w1) = SpawnRaise e ->
  cls e <> FileNotFoundError -> cls e <> CalledProcessError ->
  __init__ (arg_input args) (arg_output args) (arg_fps args) (arg_format args) w
  = (Raise e, record_spawn [fst bins; "-version"] (fs w1) w1)
  /\ (main_catches e = false -> cls e <> KeyboardInterrupt ->
      main args w = (Traceback e, record_spawn [fst bins; "-version"] (fs w1) w1)).
Proof.
  intros Hfile Hsetup Hspawn Hfnf Hcpe.
  destruct (setup_ffmpeg_paths_run w) as (bins' & w1' & Hrun & Hfs & _).
  rewrite Hsetup in Hrun. injection Hrun as <- <-.
  assert (Hinit : __init__ (arg_input args) (arg_output args) (arg_fps args)
                    (arg_format args) w
                  = (Raise e, record_spawn [fst bins; "-version"] (fs w1) w1)).
  { rewrite init_unfold, Hsetup.
    rewrite validate_inputs_file by (by rewrite Hfs).
    unfold try_except, bind, subprocess_run. rewrite Hspawn.
    destruct (cls e); try done. }
  split; [exact Hinit|].
  intros Hcatch Hkbd.
  unfold main, main_body. unfold bind at 1. unfold is_dir.
  rewrite Hfile, bool_decide_eq_false_2 by discriminate.
  unfold bind at 1. unfold is_file.
  rewrite Hfile, bool_decide_eq_true_2 by done.
  unfold bind at 1. rewrite Hinit, Hcatch.
  by rewrite bool_decide_eq_false_2.
Qed.

(** X6: whatever else the constructor does, and whether it succeeds or
    not, it leaves the search path as [_setup_ffmpeg_paths] set it: with
    the bundled directory in front when that directory exists, untouched
    otherwise.  Every construction prepends the directory again. *)
Theorem init_prepends_bundled_dir_to_path
    (vp od : string) (r : option string) (f : string) (w : World) :
  PATH (snd (__init__ vp od r f w))
  = if bool_decide (is_Some (node_at (fs w) ffmpeg_dir))
    then Path.str ffmpeg_dir +:+ pathsep +:+ PATH w
    else PATH w.
Proof.
  rewrite init_unfold.
  unfold _setup_ffmpeg_paths, _validate_inputs, _create_output_directory,
    mkdir_parents, subprocess_run. unfold_monad.
  repeat (case_match; simplify_eq/=; try done).
Qed.

(** X7: when the bundled directory exists, the bundled binary is the
    only one tried: if it is not there, the constructor fails with the
    "not installed" error after that one version check, whatever an
    ffmpeg on the search path would have answered. *)
Theorem bundled_dir_disables_system_ffmpeg
    (vp od : string) (r : option string) (f : string) (w : World) (e : exn) :
  is_Some (node_at (fs w) ffmpeg_dir) ->
  node_at (fs w) (resolve vp) = Some File ->
  spawn [Path.str (ffmpeg_dir ++ ["ffmpeg.exe"]); "-version"]
    (Path.str ffmpeg_dir +:+ pathsep +:+ PATH w) (fs w) = SpawnRaise e ->
  cls e = FileNotFoundError ->
  exists w',
    __init__ vp od r f w = (Raise (Exn RuntimeError ffmpeg_missing), w')
    /\ spawned w'
       = spawned w ++ [[Path.str (ffmpeg_dir ++ ["ffmpeg.exe"]); "-version"]]
    /\ fs w' = fs w.
Proof.
  intros Hdir Hfile Hspawn Hcls. rewrite init_unfold.
  unfold _setup_ffmpeg_paths. unfold bind at 1. unfold exists_.
  rewrite bool_decide_eq_true_2 by done. unfold bind at 1. simpl.
  rewrite validate_inputs_file by done.
  unfold try_except, bind, subprocess_run. simpl. rewrite Hspawn, Hcls. simpl.
  eexists. split; [reflexivity|]. done.
Qed.

(** What the loop of [mkdir] leaves at each path. *)
Lemma mkdir_fold_lookup (m : filesystem) (l : list path) (q : path) :
  foldr (fun q m => match m !! q with
                    | Some _ => m
                    | None => <[q := Dir]> m
                    end) m l !! q
  = match m !! q with
    | Some n => Some n
    | None => if bool_decide (q ∈ l) then Some Dir else None
    end.
Proof.
  revert q. induction l as [|a l IH]; intros q; simpl.
  - by destruct (m !! q).
  - assert (Hne : q <> a -> bool_decide (q ∈ a :: l) = bool_decide (q ∈ l)).
    { intros Hne. apply bool_decide_ext. rewrite elem_of_cons.
      split; [by intros [?|?] | by right]. }
    destruct (foldr _ m l !! a) as [n|] eqn:Ha.
    + rewrite IH. destruct (m !! q) as [k|] eqn:Hq; [done|].
      destruct (decide (q = a)) as [->|Hqa]; [|by rewrite Hne].
      rewrite IH, Hq in Ha. rewrite (bool_decide_eq_true_2 (a ∈ a :: l)) by left.
      by case_bool_decide.
    + destruct (decide (q = a)) as [->|Hqa].
      * rewrite lookup_insert_eq. rewrite IH in Ha.
        destruct (m !! a); [done|].
        by rewrite (bool_decide_eq_true_2 (a ∈ a :: l)) by left.
      * rewrite lookup_insert_ne by done. rewrite IH, Hne by done. done.
Qed.

Lemma elem_of_ancestry (p q : path) :
  q ∈ ancestry p <-> exists n, (1 <= n <= length p)%nat /\ q = take n p.
Proof.
  unfold ancestry. rewrite list_elem_of_In, in_map_iff. split.
  - intros (n & <- & Hn). apply in_seq in Hn. exists n. split; [lia|done].
  - intros (n & Hn & ->). exists n. split; [done|]. apply in_seq. lia.
Qed.

Lemma ancestry_not_root (p q : path) : q ∈ ancestry p -> q <> [].
Proof.
  intros (n & Hn & ->)%elem_of_ancestry. destruct p as [|a p]; simpl in *; [lia|].
  destruct n; [lia|]. done.
Qed.

Lemma node_at_nonroot (m : filesystem) (q : path) :
  q <> [] -> node_at m q = m !! q.
Proof. by destruct q. Qed.

(** [mkdir] when it goes through. *)
Lemma mkdir_parents_ok (p : path) (w w' : World) :
  mkdir_parents p w = (Ok tt, w') ->
  node_at (fs w') p = Some Dir
  /\ (forall q, q ∈ ancestry p -> node_at (fs w') q = Some Dir)
  /\ (forall q n, fs w !! q = Some n -> fs w' !! q = Some n)
  /\ PATH w' = PATH w /\ stdout w' = stdout w /\ stderr w' = stderr w
  /\ spawned w' = spawned w.
Proof.
  unfold mkdir_parents. case_bool_decide as Hfile; [done|].
  destruct (existsb _ _) eqn:Hany; [done|]. intros [= <-]. simpl.
  assert (Hanc : forall q, q ∈ ancestry p ->
            node_at (foldr (fun q m => match m !! q with
                                       | Some _ => m
                                       | None => <[q := Dir]> m
                                       end) (fs w) (ancestry p)) q = Some Dir).
  { intros q Hq. pose proof (ancestry_not_root _ _ Hq) as Hne.
    assert (Hnot : node_at (fs w) q <> Some File).
    { intros Hf.
      assert (existsb (fun q => bool_decide (node_at (fs w) q = Some File))
                (ancestry p) = true) as Hex; [|congruence].
      apply existsb_exists. exists q. split; [by apply list_elem_of_In|].
      by apply bool_decide_eq_true. }
    rewrite node_at_nonroot in Hnot |- * by done. rewrite mkdir_fold_lookup.
    rewrite bool_decide_eq_true_2 by done.
    by destruct (fs w !! q) as [[]|]. }
  repeat split; try done.
  - destruct p as [|a p]; [done|]. apply Hanc, elem_of_ancestry.
    exists (length (a :: p)). split; [simpl; lia|]. by rewrite firstn_all.
  - intros q n Hq. by rewrite mkdir_fold_lookup, Hq.
Qed.

(** X8: a constructor that succeeds has run the version check of its
    ffmpeg and nothing else, has printed the one line "Output
    directory: ..." (also for a quiet run, which the constructor knows
    nothing of) and nothing on the error stream, and leaves the output
    directory and every directory above it in place. *)
Theorem init_success_effects
    (vp od : string) (r : option string) (f : string) (w w' : World)
    (self : VideoFrameExtractor) :
  __init__ vp od r f w = (Ok self, w') ->
  node_at (fs w') (output_dir self) = Some Dir
  /\ (forall q, q ∈ ancestry (output_dir self) -> node_at (fs w') q = Some Dir)
  /\ stdout w' = stdout w ++ ["Output directory: " +:+ Path.str (output_dir self)]
  /\ stderr w' = stderr w
  /\ spawned w' = spawned w ++ [[ffmpeg_bin self; "-version"]].
Proof.
  rewrite init_unfold.
  destruct (setup_ffmpeg_paths_run w) as (bins & w1 & -> & Hfs & Hout & Herr & Hsp & _).
  destruct (_validate_inputs (resolve vp) bins.1 w1) as [[[]|e] w2] eqn:Hval; [|done].
  assert (Hw2 : stdout w2 = stdout w1 /\ stderr w2 = stderr w1
                /\ spawned w2 = spawned w1 ++ [[bins.1; "-version"]]).
  { revert Hval. unfold _validate_inputs, subprocess_run. unfold_monad.
    repeat (case_match; simplify_eq/=; try done). by intros [= <-]. }
  destruct Hw2 as (Hout2 & Herr2 & Hsp2).
  unfold _create_output_directory. unfold bind at 1.
  destruct (mkdir_parents (resolve od) w2) as [[[]|e] w3] eqn:Hmk; [|done].
  apply mkdir_parents_ok in Hmk as (Hdir & Hanc & _ & _ & Hout3 & Herr3 & Hsp3).
  unfold print. intros [= <- <-]. simpl.
  rewrite Hout3, Hout2, Hout, Herr3, Herr2, Herr, Hsp3, Hsp2, Hsp. done.
Qed.

(** X9: a single-file run whose output path is an existing regular file
    passes the input and version checks and then ends in a traceback:
    the [FileExistsError] of [mkdir] is none of the exceptions [main]
    catches.  Nothing is printed. *)
Theorem output_path_is_a_file_traceback
    (args : Args) (w w1 : World) (bins : string * string)
    (out err : string) (m : filesystem) :
  node_at (fs w) (resolve (arg_input args)) = Some File ->
  _setup_ffmpeg_paths w = (Ok bins, w1) ->
  spawn [fst bins; "-version"] (PATH w1) (fs w1) = SpawnExit 0 out err m ->
  node_at m (resolve (arg_output args)) = Some File ->
  main args w
  = (Traceback (Exn OtherException
                  ("[Errno 17] File exists: '"
                     +:+ Path.str (resolve (arg_output args)) +:+ "'")),
     record_spawn [fst bins; "-version"] m w1).
Proof.
  intros Hfile Hsetup Hspawn Hout.
  destruct (setup_ffmpeg_paths_run w) as (bins' & w1' & Hrun & Hfs & _).
  rewrite Hsetup in Hrun. injection Hrun as <- <-.
  unfold main, main_body. unfold bind at 1. unfold is_dir.
  rewrite Hfile, bool_decide_eq_false_2 by discriminate.
  unfold bind at 1. unfold is_file.
  rewrite Hfile, bool_decide_eq_true_2 by done.
  unfold bind at 1. rewrite init_unfold, Hsetup.
  rewrite validate_inputs_file by (by rewrite Hfs).
  unfold try_except, bind, subprocess_run, ret. rewrite Hspawn. simpl.
  unfold _create_output_directory, bind, mkdir_parents. simpl.
  rewrite Hout, bool_decide_eq_true_2 by done. reflexivity.
Qed.

End Constructor.

(** ** The extraction and the count of frames *)

Lemma str_app_nil_r (s : string) : s +:+ "" = s.
Proof. induction s as [|c s IH]; [done|]. change (String c (s +:+ "") = String c s). by rewrite IH. Qed.

Lemma str_app_assoc (a b c : string) : (a +:+ b) +:+ c = a +:+ (b +:+ c).
Proof.
  induction a as [|x a IH]; [done|].
  change (String x ((a +:+ b) +:+ c) = String x (a +:+ (b +:+ c))). by rewrite IH.
Qed.

Lemma str_length_app (a b : string) :
  String.length (a +:+ b) = (String.length a + String.length b)%nat.
Proof.
  induction a as [|x a IH]; [done|].
  change (S (String.length (a +:+ b)) = S (String.length a + String.length b)).
  by rewrite IH.
Qed.

Lemma str_rev_app_acc (s a b : string) :
  String.rev_app s (a +:+ b) = String.rev_app s a +:+ b.
Proof.
  revert a. induction s as [|c s IH]; intros a; [done|].
  simpl. change (String c (a +:+ b)) with (String c a +:+ b). apply IH.
Qed.

Lemma str_rev_app (a b : string) :
  String.rev (a +:+ b) = String.rev b +:+ String.rev a.
Proof.
  induction a as [|c a IH].
  - change (String.rev b = String.rev b +:+ ""). by rewrite str_app_nil_r.
  - unfold String.rev at 1 3. change (String c a +:+ b) with (String c (a +:+ b)).
    simpl. change (String c "") with ("" +:+ String c "").
    rewrite !str_rev_app_acc. fold (String.rev (a +:+ b)). fold (String.rev a).
    by rewrite IH, str_app_assoc.
Qed.

Lemma str_prefix_app (p s : string) : String.prefix p (p +:+ s) = true.
Proof.
  induction p as [|c p IH]; [by destruct s|].
  change (String c p +:+ s) with (String c (p +:+ s)). simpl.
  by destruct (ascii_dec c c).
Qed.

Lemma endswith_app (x p : string) : Str.endswith p (x +:+ p) = true.
Proof. unfold Str.endswith. rewrite str_rev_app. apply str_prefix_app. Qed.

(** The names the output pattern gives the frames match the pattern the
    count uses, whatever stands for the index. *)
Lemma frame_name_of_pattern (format index : string) :
  frame_name format ("frame_" +:+ index +:+ "." +:+ format) = true.
Proof.
  unfold frame_name. rewrite !andb_true_iff. repeat split.
  - apply (str_prefix_app "frame_").
  - rewrite <- (str_app_assoc "frame_" index). apply endswith_app.
  - apply Nat.leb_le. rewrite !str_length_app. simpl. lia.
Qed.

Lemma str_prefix_inv (p s : string) :
  String.prefix p s = true -> exists t, s = p +:+ t.
Proof.
  revert s. induction p as [|c p IH]; intros s Hp.
  - by exists s.
  - destruct s as [|d s]; [done|]. simpl in Hp.
    destruct (ascii_dec c d) as [->|]; [|done].
    destruct (IH s Hp) as [t ->]. by exists t.
Qed.

Lemma str_rev_involutive (s : string) : String.rev (String.rev s) = s.
Proof.
  induction s as [|c s IH]; [done|].
  change (String c s) with (String c "" +:+ s) at 1.
  by rewrite !str_rev_app, IH.
Qed.

Lemma endswith_inv (q s : string) :
  Str.endswith q s = true -> exists u, s = u +:+ q.
Proof.
  unfold Str.endswith. intros [t Ht]%str_prefix_inv.
  exists (String.rev t).
  by rewrite <- (str_rev_involutive s), Ht, str_rev_app, str_rev_involutive.
Qed.

Lemma str_app_split (a t u q : string) :
  a +:+ t = u +:+ q -> (String.length a <= String.length u)%nat ->
  exists middle, u = a +:+ middle /\ t = middle +:+ q.
Proof.
  revert u. induction a as [|c a IH]; intros u Heq Hlen.
  - by exists u.
  - destruct u as [|d u]; [simpl in Hlen; lia|].
    change (String c (a +:+ t) = String d (u +:+ q)) in Heq.
    injection Heq as -> Heq.
    destruct (IH u Heq) as (middle & -> & ->); [simpl in Hlen; lia|].
    by exists middle.
Qed.

(** The names the count takes are the names of the output pattern:
    [frame_], anything, a dot and the format. *)
Lemma frame_name_iff (format name : string) :
  frame_name format name = true
  <-> exists middle, name = "frame_" +:+ middle +:+ "." +:+ format.
Proof.
  split; [|intros [middle ->]; apply frame_name_of_pattern].
  unfold frame_name, Str.startswith. rewrite !andb_true_iff, Nat.leb_le.
  intros [[Hp Hs] Hlen].
  apply str_prefix_inv in Hp as [t Ht]. apply endswith_inv in Hs as [u Hu].
  destruct (str_app_split "frame_" t u ("." +:+ format)) as (middle & Hmid & Htm).
  - by rewrite <- Ht, <- Hu.
  - rewrite Hu, !str_length_app in Hlen. lia.
  - exists middle. by rewrite Ht, Htm.
Qed.

Lemma child_of_iff (dir q : path) :
  Path.child_of dir q = true <-> exists name, q = dir ++ [name].
Proof.
  unfold Path.child_of. rewrite andb_true_iff, !bool_decide_eq_true. split.
  - intros [Hlen Htake].
    pose proof (take_drop (length dir) q) as Hq. rewrite Htake in Hq.
    assert (Hd : length (drop (length dir) q) = 1%nat)
      by (rewrite length_drop; lia).
    destruct (drop (length dir) q) as [|name [|? ?]]; try done.
    by exists name.
  - intros [name ->]. split; [rewrite length_app; simpl; lia | apply take_app_length].
Qed.

Section Extraction.
Context `{E : Env}.

(** The listing that is counted, for a format without wildcard
    characters: once each, the entries of the directory named [frame_],
    anything, a dot and the format. *)
Lemma glob_frames_listing (m : filesystem) (dir : path) (format : string) :
  plain_format format = true ->
  NoDup (glob_frames m dir format)
  /\ forall q, q ∈ glob_frames m dir format <->
               is_Some (m !! q)
               /\ exists middle, q = dir ++ ["frame_" +:+ middle +:+ "." +:+ format].
Proof.
  intros Hplain. destruct (glob_frames_plain m dir format Hplain) as [Hnd Hin].
  split; [done|]. intros q. rewrite Hin. split.
  - intros (Hsome & [name ->]%child_of_iff & Hname). split; [done|].
    unfold Path.name in Hname. rewrite last_last in Hname.
    apply frame_name_iff in Hname as [middle ->]. by exists middle.
  - intros (Hsome & middle & ->). split; [done|]. split.
    + apply child_of_iff. eauto.
    + unfold Path.name. rewrite last_last. apply frame_name_of_pattern.
Qed.

(** The extraction when the child runs to completion. *)
Lemma run_ffmpeg_exit (self : VideoFrameExtractor) (verbose : bool) (w : World)
    (rc : Z) (out err : string) (m : filesystem) :
  spawn (ffmpeg_cmd self) (PATH w) (fs w) = SpawnExit rc out err m ->
  run_ffmpeg self verbose w
  = let line := extracted_line (length (glob_frames m (output_dir self) (format self))) in
    let report (success : bool) (lines : list string) :=
      (Ok success,
       mkWorld m (PATH w) (stdout w ++ lines) (stderr w)
         (spawned w ++ [ffmpeg_cmd self])) in
    if negb (rc =? 0) then report false ["FFmpeg error: " +:+ err]
    else if negb verbose then report true []
    else match stdout_encode_error line with
         | None => report true [line; "Frames saved to: " +:+ Path.str (output_dir self)]
         | Some reason => report false ["Error during frame extraction: " +:+ reason]
         end.
Proof.
  intros Hspawn.
  unfold run_ffmpeg, popen_communicate, print_encoded, is_Exception. unfold_monad.
  rewrite Hspawn. simpl.
  destruct (rc =? 0); simpl; [|done].
  destruct verbose; simpl.
  - destruct (stdout_encode_error _) as [reason|]; simpl; [done|].
    by rewrite <- app_assoc.
  - by rewrite app_nil_r.
Qed.


(** X10: the extraction step lets no exception through but a
    [KeyboardInterrupt].  A non-zero exit status gives [False] after the
    line "FFmpeg error: " followed by the captured error stream as it
    is; a spawn that fails with any other exception gives [False] after
    the line "Error during frame extraction: ...".  Both lines go to the
    output stream, whether the run is verbose or not. *)
Theorem extraction_failure_is_reported_not_raised
    (self : VideoFrameExtractor) (verbose : bool) (w : World) :
  match fst (run_ffmpeg self verbose w) with
  | Raise e => cls e = KeyboardInterrupt
  | Ok _ => True
  end
  /\ match spawn (ffmpeg_cmd self) (PATH w) (fs w) with
     | SpawnExit rc out err m =>
         rc <> 0 ->
         run_ffmpeg self verbose w
         = (Ok false,
            mkWorld m (PATH w) (stdout w ++ ["FFmpeg error: " +:+ err])
              (stderr w) (spawned w ++ [ffmpeg_cmd self]))
     | SpawnRaise e =>
         cls e <> KeyboardInterrupt ->
         run_ffmpeg self verbose w
         = (Ok false,
            mkWorld (fs w) (PATH w)
              (stdout w ++ ["Error during frame extraction: " +:+ msg e])
              (stderr w) (spawned w ++ [ffmpeg_cmd self]))
     end.
Proof.
  unfold run_ffmpeg, popen_communicate, print_encoded, is_Exception. unfold_monad.
  destruct (spawn _ _ _) as [e | rc out err m]; simpl.
  - case_bool_decide as Hk; simpl; [done|]. split; [done|]. done.
  - destruct (rc =? 0) eqn:Hrc; simpl.
    + split; [|intros Hne; by apply Z.eqb_eq in Hrc].
      destruct verbose; simpl; [|done]. by destruct (stdout_encode_error _).
    + done.
Qed.

(** X11: the count is taken over everything the directory holds after
    the command, frames of earlier runs included: when the command only
    adds to the file system and exits with status 0, the number in the
    line "... Successfully extracted N frames" of a verbose run is at
    least the number of entries named [frame_], anything, a dot and the
    format that the output directory held before.  (When the output
    stream does not encode that line, the run reports an error
    instead.) *)
Theorem stale_frames_are_counted
    (self : VideoFrameExtractor) (w : World) (out err : string) (m : filesystem)
    (stale : list path) :
  spawn (ffmpeg_cmd self) (PATH w) (fs w) = SpawnExit 0 out err m ->
  plain_format (format self) = true ->
  fs w ⊆ m ->
  NoDup stale ->
  (forall q, q ∈ stale ->
     is_Some (fs w !! q)
     /\ exists middle,
          q = output_dir self ++ ["frame_" +:+ middle +:+ "." +:+ format self]) ->
  exists n : nat,
    (length stale <= n)%nat
    /\ let line := Str.nl +:+ "âœ“ Successfully extracted "
                     +:+ Str.of_nat n +:+ " frames" in
       let report (success : bool) (lines : list string) :=
         run_ffmpeg self true w
         = (Ok success,
            mkWorld m (PATH w) (stdout w ++ lines) (stderr w)
              (spawned w ++ [ffmpeg_cmd self])) in
       match stdout_encode_error line with
       | None => report true [line; "Frames saved to: " +:+ Path.str (output_dir self)]
       | Some reason => report false ["Error during frame extraction: " +:+ reason]
       end.
Proof.
  intros Hspawn Hplain Hsub Hnd Hstale.
  exists (length (glob_frames m (output_dir self) (format self))). split.
  - apply submseteq_length, NoDup_submseteq; [done|].
    intros q Hq. apply (glob_frames_listing _ _ _ Hplain).
    destruct (Hstale q Hq) as [[n Hn] Hname]. split; [|done].
    exists n. by eapply lookup_weaken.
  - pose proof (run_ffmpeg_exit self true w 0 out err m Hspawn) as Hrun.
    cbv zeta in Hrun |- *. simpl in Hrun.
    change (Str.nl +:+ "âœ“ Successfully extracted "
              +:+ Str.of_nat (length (glob_frames m (output_dir self) (format self)))
              +:+ " frames")
      with (extracted_line (length (glob_frames m (output_dir self) (format self)))).
    by destruct (stdout_encode_error _).
Qed.

(** X12: the count and the output pattern agree: an entry of the
    output directory named as the pattern names frames, [frame_], an
    index, a dot and the format, is in the listing that is counted. *)
Theorem written_frames_are_listed
    (m : filesystem) (dir : path) (format index : string) (n : node) :
  plain_format format = true ->
  m !! (dir ++ ["frame_" +:+ index +:+ "." +:+ format]) = Some n ->
  dir ++ ["frame_" +:+ index +:+ "." +:+ format] ∈ glob_frames m dir format.
Proof.
  intros Hplain Hm. apply (glob_frames_plain _ _ _ Hplain).
  split; [eauto|]. split.
  - unfold Path.child_of. rewrite andb_true_iff, !bool_decide_eq_true.
    split; [rewrite length_app; simpl; lia | apply take_app_length].
  - unfold Path.name. rewrite last_last. apply frame_name_of_pattern.
Qed.

End Extraction.

(** ** The entry point *)

Section EntryPoint.
Context `{E : Env}.

(** X13: a folder without a video ends the run with status 1 after
    the one line "No video files found in: ..." on the output stream
    (quiet or not); nothing is run and nothing is created. *)
Theorem no_videos_found_exits_1 (args : Args) (w : World) :
  node_at (fs w) (resolve (arg_input args)) = Some Dir ->
  find_video_files_in (fs w) (resolve (arg_input args)) = [] ->
  main args w
  = (Exit 1,
     mkWorld (fs w) (PATH w)
       (stdout w ++ ["No video files found in: "
                       +:+ Path.str (resolve (arg_input args))])
       (stderr w) (spawned w)).
Proof.
  intros Hdir Hnone. unfold main, main_body. unfold bind at 1. unfold is_dir.
  rewrite Hdir, bool_decide_eq_true_2 by done.
  unfold bind at 1. unfold find_video_files. rewrite Hnone. reflexivity.
Qed.

(** The status the [try] block of [main] hands to [sys.exit]. *)
Lemma main_body_status (args : Args) (w w' : World) (code : Z) :
  main_body args w = (Ok code, w') -> code = 0 \/ code = 1.
Proof.
  unfold main_body, find_video_files. unfold_monad.
  repeat (case_match; simplify_eq/=; try done); intros [= <- <-]; auto.
Qed.

(** The status of a run on parsed arguments. *)
Lemma main_status (args : Args) (w : World) :
  exit_status (fst (main args w)) = 0
  \/ exit_status (fst (main args w)) = 1
  \/ exit_status (fst (main args w)) = 130.
Proof.
  unfold main. destruct (main_body args w) as [[code|e] w'] eqn:Hbody.
  - apply main_body_status in Hbody as [-> | ->]; simpl; auto.
  - destruct (main_catches e); simpl; [auto|].
    case_bool_decide; simpl; auto.
Qed.

(** X14: however a run ends, its exit status is 0, 1, 2 or 130.  It is
    2 exactly when the parser rejects the command line, which it does
    before anything of the run happens; and 0 when the parser is asked
    for the help text. *)
Theorem main_exit_status (argv : list string) (w : World) :
  (exit_status (fst (main_argv argv w)) = 0
   \/ exit_status (fst (main_argv argv w)) = 1
   \/ exit_status (fst (main_argv argv w)) = 2
   \/ exit_status (fst (main_argv argv w)) = 130)
  /\ (exit_status (fst (main_argv argv w)) = 2
      <-> exists lines, argparse argv = ParseError lines)
  /\ (forall lines, argparse argv = ParseError lines ->
        main_argv argv w
        = (Exit 2, mkWorld (fs w) (PATH w) (stdout w) (stderr w ++ lines) (spawned w)))
  /\ (forall lines, argparse argv = ParseHelp lines ->
        main_argv argv w
        = (Exit 0, mkWorld (fs w) (PATH w) (stdout w ++ lines) (stderr w) (spawned w))).
Proof.
  unfold main_argv.
  destruct (argparse argv) as [input output fps format quiet | lines | lines]; simpl.
  - pose proof (main_status (parse_args input output fps format quiet) w) as Hst.
    split; [tauto|]. split; [|done].
    split; [intros H2; rewrite H2 in Hst; by destruct Hst as [?|[?|?]] | by intros [? ?]].
  - split; [auto|]. split; [|split; [by intros ? [= <-] | done]].
    split; eauto.
  - split; [auto|]. split; [|split; [done | by intros ? [= <-]]].
    split; [done | by intros [? ?]].
Qed.

(** The loop over a list in two parts. *)
Lemma batch_loop_app (args : Args) (output_base : path) (total : nat)
    (pre post : list path) :
  forall idx failed_videos w,
    batch_loop args output_base total idx (pre ++ post) failed_videos w
    = (failed <- batch_loop args output_base total idx pre failed_videos ;;
       batch_loop args output_base total (idx + length pre) post failed) w.
Proof.
  induction pre as [|f pre IH]; intros idx acc w; simpl.
  - unfold bind, ret. by rewrite Nat.add_0_r.
  - unfold bind. destruct (batch_item _ _ _ _ _ _ _) as [[acc'|e] w1]; [|done].
    rewrite IH. unfold bind. by rewrite Nat.add_succ_r.
Qed.

(** X15: an exception that is none of the three classes the batch
    driver catches, raised while a video of a folder is processed, ends
    the whole run there: the videos after it are not processed and no
    summary is printed.  The run ends in a traceback, or with status 130
    after "Operation cancelled by user" when the exception is a
    [KeyboardInterrupt]. *)
Theorem uncaught_exception_ends_the_batch
    (args : Args) (w w1 w2 : World) (pre post : list path) (video_file : path)
    (failed : list string) (e : exn) :
  node_at (fs w) (resolve (arg_input args)) = Some Dir ->
  find_video_files_in (fs w) (resolve (arg_input args)) = pre ++ video_file :: post ->
  let output_base := resolve (arg_output args) in
  let total := length (pre ++ video_file :: post) in
  let w0 := snd (when (negb (arg_quiet args))
                   (print ("Found " +:+ Str.of_nat total +:+ " video file(s) in "
                            +:+ Path.name (resolve (arg_input args)) +:+ "/")) w) in
  batch_run args output_base total 1 pre w0 failed w1 ->
  process_video args output_base video_file
    (snd (when (negb (arg_quiet args))
            (print (item_header total (S (length pre)) video_file)) w1))
  = (Raise e, w2) ->
  main_catches e = false ->
  main args w
  = if bool_decide (cls e = KeyboardInterrupt)
    then (Exit 130, snd (eprint (Str.nl +:+ "Operation cancelled by user") w2))
    else (Traceback e, w2).
Proof.
  intros Hdir Hfiles output_base total w0 Hrun Hraise Hcatch.
  assert (Hbody : main_body args w = (Raise e, w2)).
  { unfold main_body. unfold bind at 1. unfold is_dir.
    rewrite Hdir, bool_decide_eq_true_2 by done.
    unfold bind at 1. unfold find_video_files. rewrite Hfiles.
    assert (Hloop : batch_loop args output_base total 1
                      (pre ++ video_file :: post) [] w0 = (Raise e, w2)).
    { rewrite batch_loop_app. unfold bind at 1.
      rewrite (batch_loop_run _ _ _ _ _ _ _ _ Hrun []). simpl.
      unfold bind at 1. rewrite batch_item_unfold, Hraise, Hcatch. reflexivity. }
    destruct (pre ++ video_file :: post) as [|x xs] eqn:Hl.
    { by destruct pre. }
    fold output_base. unfold bind at 1.
    replace (when (negb (arg_quiet args)) _ w) with (Ok tt, w0).
    - unfold bind at 1. fold total in Hloop |- *.
      replace (length (x :: xs)) with total by reflexivity.
      by rewrite Hloop.
    - subst w0 total. unfold when, print, ret.
      by destruct (arg_quiet args). }
  unfold main. rewrite Hbody, Hcatch. by case_bool_decide.
Qed.

End EntryPoint.

(** ** Names and formats *)

Lemma lower_ascii_dot (c : ascii) :
  Ascii.eqb (Str.lower_ascii c) "." = Ascii.eqb c ".".
Proof. destruct c as [[] [] [] [] [] [] [] []]; reflexivity. Qed.

Lemma lower_ascii_idem (c : ascii) :
  Str.lower_ascii (Str.lower_ascii c) = Str.lower_ascii c.
Proof. destruct c as [[] [] [] [] [] [] [] []]; reflexivity. Qed.

Lemma lower_idem (s : string) : Str.lower (Str.lower s) = Str.lower s.
Proof. induction s as [|c s IH]; simpl; [done|]. by rewrite lower_ascii_idem, IH. Qed.

Lemma lower_lstrip_dots (s : string) :
  Str.lower (Str.lstrip_dots s) = Str.lstrip_dots (Str.lower s).
Proof.
  induction s as [|c s IH]; [done|].
  change (Str.lower (String c s)) with (String (Str.lower_ascii c) (Str.lower s)).
  rewrite !lstrip_dots_cons, lower_ascii_dot.
  by destruct (Ascii.eqb c ".").
Qed.

Lemma lstrip_dots_idem (s : string) :
  Str.lstrip_dots (Str.lstrip_dots s) = Str.lstrip_dots s.
Proof.
  induction s as [|c s IH]; [done|].
  rewrite lstrip_dots_cons. destruct (Ascii.eqb c ".") eqn:Hc; [done|].
  by rewrite lstrip_dots_cons, Hc.
Qed.

Lemma lower_ascii_is_ascii (c : ascii) :
  (nat_of_ascii (Str.lower_ascii c) <? 128)%nat = (nat_of_ascii c <? 128)%nat.
Proof. destruct c as [[] [] [] [] [] [] [] []]; reflexivity. Qed.

Lemma lower_is_ascii (s : string) : Str.is_ascii (Str.lower s) = Str.is_ascii s.
Proof.
  induction s as [|c s IH]; simpl; [done|]. by rewrite lower_ascii_is_ascii, IH.
Qed.

Lemma lstrip_dots_is_ascii (s : string) :
  Str.is_ascii s = true -> Str.is_ascii (Str.lstrip_dots s) = true.
Proof.
  induction s as [|c s IH]; [done|].
  rewrite lstrip_dots_cons. intros Hs. destruct (Ascii.eqb c "."); [|done].
  simpl in Hs. apply andb_true_iff in Hs as [_ Hs]. by apply IH.
Qed.

Section Names.
Context `{E : Env}.

(** X16: the stripping of dots leaves a normalised format as it is; and
    for a format of ASCII characters so do the lower-casing and the
    whole normalisation: passing an extractor's own format back in
    changes nothing. *)
Theorem normalize_format_is_idempotent (format : string) :
  Str.lstrip_dots (normalize_format format) = normalize_format format
  /\ (Str.is_ascii format = true ->
      normalize_format (normalize_format format) = normalize_format format
      /\ py_lower (normalize_format format) = normalize_format format).
Proof.
  unfold normalize_format. split; [apply lstrip_dots_idem|].
  intros Ha.
  assert (Hl : py_lower format = Str.lower format) by (unfold py_lower; by rewrite Ha).
  rewrite Hl.
  assert (Hn : Str.is_ascii (Str.lstrip_dots (Str.lower format)) = true)
    by (apply lstrip_dots_is_ascii; by rewrite lower_is_ascii).
  unfold py_lower. rewrite Hn. split.
  - by rewrite lower_lstrip_dots, lower_idem, lstrip_dots_idem.
  - by rewrite lower_lstrip_dots, lower_idem.
Qed.

Lemma substring_split (s : string) (i : nat) :
  (i <= String.length s)%nat ->
  String.substring 0 i s +:+ String.substring i (String.length s - i) s = s.
Proof.
  revert i. induction s as [|c s IH]; intros [|i] Hi; simpl in *; try lia.
  - done.
  - change (String c (String.substring 0 (String.length s) s) = String c s).
    f_equal. specialize (IH 0%nat). simpl in IH.
    rewrite Nat.sub_0_r in IH. destruct s; [done|]. apply IH. lia.
  - change (String c (String.substring 0 i s
                       +:+ String.substring i (String.length s - i) s) = String c s).
    f_equal. apply IH. lia.
Qed.

Lemma substring_prefix_length (s : string) (i : nat) :
  (i <= String.length s)%nat -> String.length (String.substring 0 i s) = i.
Proof.
  revert i. induction s as [|c s IH]; intros [|i] Hi; simpl in *; try lia; try done.
  f_equal. apply IH. lia.
Qed.

Lemma rfind_dot_bound (s : string) (i : nat) :
  Str.rfind_dot s = Some i -> (i < String.length s)%nat.
Proof.
  revert i. induction s as [|c s IH]; intros i; simpl; [done|].
  destruct (Str.rfind_dot s) as [j|].
  - intros [= <-]. specialize (IH j eq_refl). lia.
  - destruct (Ascii.eqb c "."); [|done]. intros [= <-]. lia.
Qed.


End Names.

(** ** The frame-rate ratio *)

Lemma digits_of_uint (u : Decimal.uint) :
  all_chars is_digit (NilEmpty.string_of_uint u) = true.
Proof. induction u; simpl; auto. Qed.

Lemma all_chars_contains (f : ascii -> bool) (c : ascii) (s : string) :
  all_chars f s = true -> f c = false -> Str.contains c s = false.
Proof.
  intros Hs Hc. induction s as [|d s IH]; simpl in *; [done|].
  apply andb_true_iff in Hs as [Hd Hs]. rewrite (IH Hs), orb_false_r.
  destruct (Ascii.eqb_spec d c) as [->|]; [congruence|done].
Qed.

Lemma to_uint_normal (p : positive) :
  Pos.to_uint p <> Decimal.Nil /\ forall u, Pos.to_uint p <> Decimal.D0 u.
Proof.
  split; [apply DecimalPos.Unsigned.to_uint_nonnil|].
  intros u Hu.
  pose proof (DecimalPos.Unsigned.to_of (Pos.to_uint p)) as Hnorm.
  rewrite DecimalPos.Unsigned.of_to in Hnorm. simpl in Hnorm.
  assert (Hnz : Decimal.nzhead (Pos.to_uint p) <> Decimal.Nil).
  { intros Hnil. apply DecimalFacts.unorm_0 in Hnil. rewrite <- Hnorm in Hnil.
    by apply DecimalPos.Unsigned.to_uint_nonzero in Hnil. }
  rewrite (DecimalFacts.unorm_nzhead _ Hnz) in Hnorm.
  rewrite Hnorm in Hu. by apply DecimalFacts.nzhead_nonzero in Hu.
Qed.

Section Ratio.
Context `{E : Env}.

(** The decimal text of a non-negative integer is a literal of that
    value. *)
Lemma int_literal_of_Z (z : Z) :
  0 <= z -> (String.length (Str.of_Z z) <= 4300)%nat ->
  int_literal (Str.of_Z z) = Some z
  /\ Str.contains "/" (Str.of_Z z) = false.
Proof.
  intros Hz Hlen. destruct z as [|p|p]; [done| |lia].
  destruct (to_uint_normal p) as [Hnil Hzero].
  assert (Htext : Str.of_Z (Z.pos p) = NilEmpty.string_of_uint (Pos.to_uint p)).
  { unfold Str.of_Z. simpl. unfold NilZero.string_of_uint.
    by destruct (Pos.to_uint p). }
  rewrite Htext in Hlen |- *. split.
  - unfold int_literal.
    destruct (NilEmpty.string_of_uint (Pos.to_uint p)) as [|c s] eqn:Hs.
    { destruct (Pos.to_uint p); done. }
    assert (H1 : all_chars is_digit (String c s) = true)
      by (rewrite <- Hs; apply digits_of_uint).
    assert (H3 : (String.length (String c s) <=? 4300)%nat = true)
      by (by apply Nat.leb_le).
    assert (Hc : Ascii.eqb c "0" = false).
    { destruct (Pos.to_uint p) as [|u|u|u|u|u|u|u|u|u|u]; simpl in Hs;
        try done; try (by destruct (Hzero u)); by injection Hs as <- _. }
    rewrite H1, Hc, H3. cbn [negb orb andb].
    rewrite <- Hs.
    replace (NilZero.uint_of_string (NilEmpty.string_of_uint (Pos.to_uint p)))
      with (Some (Pos.to_uint p)).
    + simpl. unfold Z.of_uint. by rewrite DecimalPos.Unsigned.of_to.
    + symmetry. rewrite <- (NilZero.usu _ Hnil). unfold NilZero.string_of_uint.
      by destruct (Pos.to_uint p).
  - apply (all_chars_contains is_digit); [apply digits_of_uint|done].
Qed.

Lemma split_on_one_sep (c : ascii) (a b : string) :
  Str.contains c a = false -> Str.contains c b = false ->
  Str.split_on c (a +:+ String c b) = [a; b].
Proof.
  intros Ha Hb. induction a as [|x a IH].
  - change ("" +:+ String c b) with (String c b). simpl.
    by rewrite Ascii.eqb_refl, split_on_no_sep.
  - simpl in Ha. apply orb_false_iff in Ha as [Hx Ha].
    change (String x a +:+ String c b) with (String x (a +:+ String c b)).
    simpl. by rewrite Hx, (IH Ha).
Qed.

(** X18: a frame-rate line made of the decimal texts of two
    non-negative integers around a slash is read by the probe through
    [eval], which gives the quotient of the two integers as a float, and
    raises [ZeroDivisionError] when the second is zero. *)
Theorem ratio_text_evaluates_to_the_quotient (n d : Z) :
  0 <= n -> 0 <= d ->
  (String.length (Str.of_Z n) <= 4300)%nat ->
  (String.length (Str.of_Z d) <= 4300)%nat ->
  Str.contains "/" (Str.of_Z n +:+ "/" +:+ Str.of_Z d) = true
  /\ parse_ratio (Str.of_Z n +:+ "/" +:+ Str.of_Z d) = Some (n, d)
  /\ py_eval (Str.of_Z n +:+ "/" +:+ Str.of_Z d)
     = if d =? 0 then Raise (Exn ZeroDivisionError "division by zero")
       else fmap_res (fun q => PNum (NFloat q)) (int_truediv n d).
Proof.
  intros Hn Hd Hln Hld.
  destruct (int_literal_of_Z n Hn Hln) as [Hni Hnc].
  destruct (int_literal_of_Z d Hd Hld) as [Hdi Hdc].
  assert (Hr : parse_ratio (Str.of_Z n +:+ "/" +:+ Str.of_Z d) = Some (n, d)).
  { unfold parse_ratio.
    change ("/" +:+ Str.of_Z d) with (String "/" (Str.of_Z d)).
    by rewrite (split_on_one_sep "/" _ _ Hnc Hdc), Hni, Hdi. }
  split; [|split; [exact Hr|]].
  - rewrite contains_app. change ("/" +:+ Str.of_Z d) with (String "/" (Str.of_Z d)).
    simpl. by rewrite orb_true_r.
  - unfold py_eval. by rewrite Hr.
Qed.

End Ratio.

(** ** The folder scan and the rest of the file system *)

Global Instance path_le_antisym : AntiSymm (=) Path.le.
Proof.
  intros p. unfold Path.le.
  induction p as [|a p IH]; intros [|b q]; simpl; try done.
  rewrite (string_eqb_sym b a).
  destruct (String.eqb_spec a b) as [->|Hab].
  - intros H1 H2. f_equal. by apply IH.
  - intros H1 H2. destruct Hab. apply (anti_symm String.le); assumption.
Qed.

Section ScanBelow.
Context `{E : Env}.

(** X19: the result of the folder scan is determined by what is below
    the folder: two file systems that agree on every path below it give
    the same list, in the same order, whatever they hold elsewhere (an
    output directory outside the folder, say). *)
Theorem find_video_files_looks_below_the_folder_only
    (m m' : filesystem) (folder_path : path) :
  (forall p, Path.below folder_path p = true -> m !! p = m' !! p) ->
  find_video_files_in m folder_path = find_video_files_in m' folder_path.
Proof.
  intros Hagree.
  destruct (find_video_files_in_sorted m folder_path) as [Hs Hnd].
  destruct (find_video_files_in_sorted m' folder_path) as [Hs' Hnd'].
  apply (StronglySorted_unique Path.le); [done|done|].
  apply NoDup_Permutation; [done|done|].
  intros p. rewrite !find_video_files_in_members. split.
  - intros (Hb & Hf & He). repeat split; try done. by rewrite <- Hagree.
  - intros (Hb & Hf & He). repeat split; try done. by rewrite Hagree.
Qed.

End ScanBelow.

(** ** A run on one file, and the output directory *)

Section SingleFile.
Context `{E : Env}.

(** The constructor goes through on regular files only. *)
Lemma init_ok_input_is_a_file (vp od : string) (r : option string) (f : string)
    (w w' : World) (self : VideoFrameExtractor) :
  __init__ vp od r f w = (Ok self, w') -> node_at (fs w) (resolve vp) = Some File.
Proof.
  rewrite init_unfold.
  destruct (setup_ffmpeg_paths_run w) as (bins & w1 & -> & Hfs & _).
  destruct (_validate_inputs (resolve vp) bins.1 w1) as [[[]|e] w2] eqn:Hval; [|done].
  intros _. revert Hval. rewrite <- Hfs.
  unfold _validate_inputs. unfold bind at 1. unfold exists_.
  destruct (bool_decide (is_Some _)); simpl; [|done].
  unfold bind at 1. unfold is_file.
  case_bool_decide as Hf; simpl; [done|done].
Qed.

(** X20: whenever the constructor goes through on the input, the run is
    a single-file run (the input is no folder), and its exit status is
    the result of the extraction: 0 for [True], 1 for [False].  Nothing
    is printed after the extraction. *)
Theorem single_file_status_follows_extraction
    (args : Args) (w w1 w2 : World) (self : VideoFrameExtractor) (success : bool) :
  __init__ (arg_input args) (arg_output args) (arg_fps args) (arg_format args) w
  = (Ok self, w1) ->
  extract_frames self (negb (arg_quiet args)) w1 = (Ok success, w2) ->
  main args w = (Exit (if success then 0 else 1), w2).
Proof.
  intros Hinit Hrun.
  pose proof (init_ok_input_is_a_file _ _ _ _ _ _ _ Hinit) as Hfile.
  unfold main, main_body. unfold bind at 1. unfold is_dir.
  rewrite Hfile, bool_decide_eq_false_2 by discriminate.
  unfold bind at 1. unfold is_file.
  rewrite Hfile, bool_decide_eq_true_2 by done.
  unfold bind at 1. rewrite Hinit. unfold bind at 1. rewrite Hrun. reflexivity.
Qed.

(** The loop of [mkdir] on paths that are all there. *)
Lemma mkdir_fold_present (m : filesystem) (l : list path) :
  (forall q, q ∈ l -> is_Some (m !! q)) ->
  foldr (fun q m => match m !! q with
                    | Some _ => m
                    | None => <[q := Dir]> m
                    end) m l = m.
Proof.
  induction l as [|a l IH]; intros Hall; simpl; [done|].
  rewrite IH by (intros q Hq; apply Hall; by right).
  destruct (Hall a) as [n ->]; [by left|]. done.
Qed.

(** X21: creating the output directory removes and changes no entry of
    the file system (what an earlier run left in the directory stays),
    and doing it again on the result creates nothing more. *)
Theorem create_output_directory_keeps_and_repeats (output_dir : path) (w w' : World) :
  _create_output_directory output_dir w = (Ok tt, w') ->
  fs w ⊆ fs w'
  /\ exists w'', _create_output_directory output_dir w' = (Ok tt, w'')
                 /\ fs w'' = fs w'.
Proof.
  unfold _create_output_directory. unfold bind at 1.
  destruct (mkdir_parents output_dir w) as [[[]|e] w1] eqn:Hmk; [|done].
  unfold print. intros [= <-]. simpl.
  pose proof (mkdir_parents_ok _ _ _ Hmk) as (Hdir & Hanc & Hkeep & _).
  split.
  - apply map_subseteq_spec. exact Hkeep.
  - unfold bind, mkdir_parents. simpl.
    rewrite Hdir, bool_decide_eq_false_2 by discriminate.
    assert (Hnone : existsb (fun q => bool_decide (node_at (fs w1) q = Some File))
                      (ancestry output_dir) = false).
    { apply not_true_is_false. intros (q & Hq & Hf)%existsb_exists.
      apply list_elem_of_In in Hq. apply bool_decide_eq_true in Hf.
      rewrite (Hanc q Hq) in Hf. discriminate. }
    rewrite Hnone. eexists. split; [reflexivity|]. simpl.
    apply mkdir_fold_present. intros q Hq.
    pose proof (Hanc q Hq) as Hd.
    rewrite node_at_nonroot in Hd by (by eapply ancestry_not_root). eauto.
Qed.

(** X22: what a quiet extraction prints.  Nothing goes to the error
    stream.  On the output stream there is the warning of the probe or
    nothing, followed by nothing when the extraction succeeds or an
    exception escapes, and by one line when it fails. *)
Theorem quiet_extraction_output (self : VideoFrameExtractor) (w : World) :
  stderr (snd (extract_frames self false w)) = stderr w
  /\ exists warned : list string,
       (warned = [] \/ warned = ["Warning: Could not retrieve video information"])
       /\ match fst (extract_frames self false w) with
          | Ok false =>
              exists line, stdout (snd (extract_frames self false w))
                           = stdout w ++ warned ++ [line]
          | _ => stdout (snd (extract_frames self false w)) = stdout w ++ warned
          end.
Proof.
  rewrite extract_frames_unfold.
  assert (Hprobe : stderr (snd (_get_video_info self w)) = stderr w
            /\ exists warned : list string,
                 (warned = [] \/ warned = ["Warning: Could not retrieve video information"])
                 /\ stdout (snd (_get_video_info self w)) = stdout w ++ warned).
  { unfold _get_video_info, probe_and_parse, subprocess_run. unfold_monad.
    repeat (case_match; simplify_eq/=; try done);
      (split; [done|]);
      first [ by (exists []; split; [by left | by rewrite app_nil_r])
            | by (eexists; split; [by right | done]) ]. }
  destruct Hprobe as (Herr & warned & Hwarned & Hout).
  destruct (_get_video_info self w) as [[info|e] w1]; simpl in *.
  - assert (Hrun : stderr (snd (run_ffmpeg self false w1)) = stderr w1
              /\ match fst (run_ffmpeg self false w1) with
                 | Ok false => exists line, stdout (snd (run_ffmpeg self false w1))
                                            = stdout w1 ++ [line]
                 | _ => stdout (snd (run_ffmpeg self false w1)) = stdout w1
                 end).
    { unfold run_ffmpeg, popen_communicate. unfold_monad.
      repeat (case_match; simplify_eq/=; try done); eauto. }
    destruct Hrun as (Herr2 & Hout2). unfold announce, ret. simpl.
    split; [congruence|]. exists warned. split; [done|].
    destruct (run_ffmpeg self false w1) as [[[]|e] w2]; simpl in *.
    + by rewrite Hout2, Hout.
    + destruct Hout2 as [line Hl]. exists line. by rewrite Hl, Hout, app_assoc.
    + by rewrite Hout2, Hout.
  - split; [done|]. exists warned. done.
Qed.

End SingleFile.

(** ** One video of a folder *)

Section BatchItem.
Context `{E : Env}.

Lemma init_ok_spawned (vp od : string) (r : option string) (f : string)
    (w w' : World) (self : VideoFrameExtractor) :
  __init__ vp od r f w = (Ok self, w') ->
  spawned w' = spawned w ++ [[ffmpeg_bin self; "-version"]].
Proof.
  rewrite init_unfold.
  destruct (setup_ffmpeg_paths_run w) as (bins & w1 & -> & _ & _ & _ & Hsp & _).
  destruct (_validate_inputs (resolve vp) bins.1 w1) as [[[]|e] w2] eqn:Hval; [|done].
  assert (Hw2 : spawned w2 = spawned w1 ++ [[bins.1; "-version"]]).
  { revert Hval. unfold _validate_inputs, subprocess_run. unfold_monad.
    repeat (case_match; simplify_eq/=; try done). by intros [= <-]. }
  unfold _create_output_directory. unfold bind at 1.
  destruct (mkdir_parents (resolve od) w2) as [[[]|e] w3] eqn:Hmk; [|done].
  apply mkdir_parents_ok in Hmk as (_ & _ & _ & _ & _ & _ & Hsp3).
  unfold print. intros [= <- <-]. simpl. by rewrite Hsp3, Hw2, Hsp.
Qed.

Lemma extract_frames_ok_spawned (self : VideoFrameExtractor) (verbose : bool)
    (w w' : World) (success : bool) :
  extract_frames self verbose w = (Ok success, w') ->
  spawned w' = spawned w ++ [ffprobe_cmd self; ffmpeg_cmd self].
Proof.
  rewrite extract_frames_unfold. intros Hrun.
  pose proof (get_video_info_spawned self w) as Hprobe.
  destruct (_get_video_info self w) as [[info|e] w1]; [|done]. simpl in Hprobe.
  pose proof (announce_spawned self verbose info w1) as (Hann & _ & _).
  destruct (announce self verbose info w1) as [[[]|e] w2]; [|done]. simpl in Hann.
  pose proof (run_ffmpeg_spawned self verbose w2) as Hsp.
  rewrite Hrun in Hsp. simpl in Hsp.
  by rewrite Hsp, Hann, Hprobe, <- app_assoc.
Qed.

(** The commands the processing of one video of a folder runs when it
    returns: the version check, the probe, and the extraction into the
    directory [output_base / video_file.stem]. *)
Lemma process_video_spawned (args : Args) (output_base video_file : path)
    (w w' : World) (success : bool) :
  process_video args output_base video_file w = (Ok success, w') ->
  exists bin probe,
    spawned w'
    = spawned w
      ++ [ [bin; "-version"]; probe;
           [ bin; "-i"; Path.str (resolve (Path.str video_file)); "-vf";
             "fps=" +:+ default_frame_rate (arg_fps args); "-start_number"; "0";
             Path.str (Path.join
                         (resolve (Path.str (video_output_dir output_base video_file)))
                         ("frame_%06d." +:+ normalize_format (arg_format args))) ] ].
Proof.
  unfold process_video. unfold bind at 1.
  destruct (__init__ _ _ _ _ w) as [[self|e] wi] eqn:Hinit; [|done]. intros Hrun.
  pose proof (init_ok_spawned _ _ _ _ _ _ _ Hinit) as Hsp.
  apply init_fields in Hinit as (Hvp & Hod & Hr & Hf).
  apply extract_frames_ok_spawned in Hrun.
  exists (ffmpeg_bin self), (ffprobe_cmd self).
  rewrite Hrun, Hsp, <- app_assoc. simpl.
  unfold ffmpeg_cmd, output_pattern. by rewrite Hvp, Hod, Hr, Hf.
Qed.

(** C10: the output directory of a video of a folder is the output root
    joined with the stem of the video's name, and depends on nothing
    else of its path.  So when two videos of the same name are
    processed, the two extraction commands that are run carry the same
    output pattern, [frame_%06d.<format>] in that one directory: the
    frames of both are written to the same place. *)
Theorem same_name_same_output_directory
    (args : Args) (output_base v1 v2 : path)
    (w1 w1' w2 w2' : World) (b1 b2 : bool) :
  Path.name v1 = Path.name v2 ->
  process_video args output_base v1 w1 = (Ok b1, w1') ->
  process_video args output_base v2 w2 = (Ok b2, w2') ->
  let dir := resolve (Path.str (Path.join output_base (Path.stem [Path.name v1]))) in
  let pattern :=
    Path.str (Path.join dir ("frame_%06d." +:+ normalize_format (arg_format args))) in
  let command (bin : string) (video_file : path) :=
    [ bin; "-i"; Path.str (resolve (Path.str video_file)); "-vf";
      "fps=" +:+ default_frame_rate (arg_fps args); "-start_number"; "0"; pattern ] in
  video_output_dir output_base v1 = Path.join output_base (Path.stem [Path.name v1])
  /\ video_output_dir output_base v2 = video_output_dir output_base v1
  /\ (exists bin probe,
        spawned w1' = spawned w1 ++ [[bin; "-version"]; probe; command bin v1])
  /\ (exists bin probe,
        spawned w2' = spawned w2 ++ [[bin; "-version"]; probe; command bin v2]).
Proof.
  intros Hname H1 H2 dir pattern command.
  assert (Hd1 : video_output_dir output_base v1
                = Path.join output_base (Path.stem [Path.name v1])) by done.
  assert (Hd2 : video_output_dir output_base v2 = video_output_dir output_base v1).
  { unfold video_output_dir, Path.stem. by rewrite Hname. }
  split; [exact Hd1|]. split; [exact Hd2|].
  apply process_video_spawned in H1 as (bin1 & probe1 & Hs1).
  apply process_video_spawned in H2 as (bin2 & probe2 & Hs2).
  rewrite Hd2 in Hs2. rewrite Hd1 in Hs1, Hs2.
  split; [by exists bin1, probe1 | by exists bin2, probe2].
Qed.

End BatchItem.

(** * The further properties on concrete cases *)

Section ConcreteCoverage.
Import Demo Cases.
Local Existing Instance demo_env.

Lemma caught_probe_failure_witness :
  let w := world mixed_folder "/usr/bin" in
  let w1 := snd (print "Warning: Could not retrieve video information"
                   (snd (probe_and_parse extractor_mov w))) in
  _get_video_info extractor_mov w = (Ok zero_info, w1)
  /\ extract_frames extractor_mov true w
     = run_ffmpeg extractor_mov true (snd (announce extractor_mov true zero_info w1))
  /\ spawned (snd (extract_frames extractor_mov true w))
     = spawned w ++ [ffprobe_cmd extractor_mov; ffmpeg_cmd extractor_mov].
Proof.
  refine (caught_probe_failure_still_extracts extractor_mov true
            (world mixed_folder "/usr/bin")
            (snd (probe_and_parse extractor_mov (world mixed_folder "/usr/bin")))
            (Exn ValueError "could not convert string to float: N/A") _ _);
    vm_compute; reflexivity.
Defined.

Lemma short_probe_output_witness :
  @_get_video_info (scripted_env short_probe) extractor (world mixed_folder "")
  = (Ok (@zero_info (scripted_env short_probe)),
     mkWorld mixed_folder "" [] []
       ([] ++ [ffprobe_cmd extractor])).
Proof.
  refine (@short_probe_output_gives_zero_silently (scripted_env short_probe)
            extractor (world mixed_folder "") ("10.5" +:+ Str.nl) "" mixed_folder _ _).
  - vm_compute. reflexivity.
  - vm_compute. lia.
Defined.

Lemma init_on_a_directory_witness :
  exists w',
    __init__ "/videos" "/out" None "png" (world mixed_folder "/usr/bin")
    = (Raise (Exn ValueError ("Input path is not a file: " +:+ Path.str (resolve "/videos"))),
       w')
    /\ fs w' = mixed_folder /\ stdout w' = [] /\ stderr w' = [] /\ spawned w' = [].
Proof.
  refine (init_on_a_directory_is_a_value_error "/videos" "/out" None "png"
            (world mixed_folder "/usr/bin") _).
  vm_compute. reflexivity.
Defined.

Lemma version_check_witness :
  let e := Exn OtherException "[Errno 13] Permission denied: 'ffmpeg'" in
  let w := world mixed_folder "/usr/bin" in
  @__init__ (scripted_env permission_denied) "/videos/a.mp4" "/out" None "png" w
  = (Raise e, record_spawn ["ffmpeg"; "-version"] mixed_folder w)
  /\ @main (scripted_env permission_denied) (args "/videos/a.mp4" "/out" false) w
     = (Traceback e, record_spawn ["ffmpeg"; "-version"] mixed_folder w).
Proof.
  intros e w.
  destruct (@version_check_other_exception_propagates (scripted_env permission_denied)
              (args "/videos/a.mp4" "/out" false) w w ("ffmpeg", "ffprobe") e)
    as [Hinit Hmain].
  - vm_compute. reflexivity.
  - vm_compute. reflexivity.
  - vm_compute. reflexivity.
  - discriminate.
  - discriminate.
  - split; [exact Hinit|]. apply Hmain; [reflexivity | discriminate].
Defined.

Lemma bundled_dir_witness :
  exists w',
    __init__ "/videos/a.mp4" "/out" None "png" (world bundled_dir_folder "/usr/bin")
    = (Raise (Exn RuntimeError ffmpeg_missing), w')
    /\ spawned w'
       = spawned (world bundled_dir_folder "/usr/bin")
         ++ [[Path.str (ffmpeg_dir ++ ["ffmpeg.exe"]); "-version"]]
    /\ fs w' = fs (world bundled_dir_folder "/usr/bin").
Proof.
  refine (bundled_dir_disables_system_ffmpeg "/videos/a.mp4" "/out" None "png"
            (world bundled_dir_folder "/usr/bin")
            (not_found "/opt/tool/ffmpeg/bin/ffmpeg.exe") _ _ _ _).
  - vm_compute. eauto.
  - vm_compute. reflexivity.
  - vm_compute. reflexivity.
  - reflexivity.
Defined.

Lemma init_success_witness :
  let w := world mixed_folder "/usr/bin" in
  let w' := snd (__init__ "/videos/a.mp4" "/out/deep/frames" None "png" w) in
  let self := {| video_path := ["videos"; "a.mp4"]; output_dir := ["out"; "deep"; "frames"];
                 frame_rate := "30"; format := "png";
                 ffmpeg_bin := "ffmpeg"; ffprobe_bin := "ffprobe" |} in
  node_at (fs w') (output_dir self) = Some Dir
  /\ (forall q, q ∈ ancestry (output_dir self) -> node_at (fs w') q = Some Dir)
  /\ stdout w' = stdout w ++ ["Output directory: " +:+ Path.str (output_dir self)]
  /\ stderr w' = stderr w
  /\ spawned w' = spawned w ++ [[ffmpeg_bin self; "-version"]].
Proof.
  intros w w' self.
  refine (init_success_effects "/videos/a.mp4" "/out/deep/frames" None "png" w w' self _).
  vm_compute. reflexivity.
Defined.

Lemma output_path_is_a_file_witness :
  main (args "/videos/a.mp4" "/videos/notes.txt" false) (world mixed_folder "/usr/bin")
  = (Traceback (Exn OtherException
                  ("[Errno 17] File exists: '"
                     +:+ Path.str (resolve "/videos/notes.txt") +:+ "'")),
     record_spawn ["ffmpeg"; "-version"] mixed_folder (world mixed_folder "/usr/bin")).
Proof.
  refine (output_path_is_a_file_traceback
            (args "/videos/a.mp4" "/videos/notes.txt" false)
            (world mixed_folder "/usr/bin") (world mixed_folder "/usr/bin")
            ("ffmpeg", "ffprobe") "ffmpeg version 6.0" "" mixed_folder _ _ _ _);
    vm_compute; reflexivity.
Defined.

Lemma stale_frames_witness :
  exists n : nat,
    (length [["out"; "frame_000009.png"]] <= n)%nat
    /\ let line := Str.nl +:+ "âœ“ Successfully extracted "
                     +:+ Str.of_nat n +:+ " frames" in
       let report (success : bool) (lines : list string) :=
         run_ffmpeg extractor true (world stale_folder "/usr/bin")
         = (Ok success,
            mkWorld (add_files stale_folder (frame_files "/out/frame_%06d.png"))
              (PATH (world stale_folder "/usr/bin"))
              (stdout (world stale_folder "/usr/bin") ++ lines)
              (stderr (world stale_folder "/usr/bin"))
              (spawned (world stale_folder "/usr/bin") ++ [ffmpeg_cmd extractor])) in
       match stdout_encode_error line with
       | None => report true [line; "Frames saved to: " +:+ Path.str (output_dir extractor)]
       | Some reason => report false ["Error during frame extraction: " +:+ reason]
       end.
Proof.
  refine (stale_frames_are_counted extractor (world stale_folder "/usr/bin") "" ""
            (add_files stale_folder (frame_files "/out/frame_%06d.png"))
            [["out"; "frame_000009.png"]] _ _ _ _ _).
  - vm_compute. reflexivity.
  - vm_compute. reflexivity.
  - simpl. repeat (apply insert_subseteq_r; [vm_compute; reflexivity|]). done.
  - apply NoDup_singleton.
  - intros q ->%list_elem_of_singleton. split; [vm_compute; eauto|].
    by exists "000009".
Defined.

(** The run on [stale_folder], evaluated: three frames are written and
    four are reported. *)
Example stale_frames_four_reported :
  length (glob_frames stale_folder ["out"] "png") = 1%nat
  /\ stdout (snd (run_ffmpeg extractor true (world stale_folder "/usr/bin")))
     = [extracted_line 4; "Frames saved to: /out"].
Proof. vm_compute. done. Qed.

Lemma written_frames_witness :
  ["out"] ++ ["frame_" +:+ "000001" +:+ "." +:+ "png"]
  ∈ glob_frames extracted ["out"] "png".
Proof.
  refine (written_frames_are_listed extracted ["out"] "png" "000001" File _ _);
    vm_compute; reflexivity.
Defined.

Lemma no_videos_found_witness :
  main (args "/videos" "/out" true) (world no_video_folder "/usr/bin")
  = (Exit 1,
     mkWorld no_video_folder "/usr/bin"
       ([] ++ ["No video files found in: " +:+ Path.str (resolve "/videos")]) [] []).
Proof.
  refine (no_videos_found_exits_1 (args "/videos" "/out" true)
            (world no_video_folder "/usr/bin") _ _);
    vm_compute; reflexivity.
Defined.

Lemma ratio_text_witness :
  Str.contains "/" "30000/1001" = true
  /\ parse_ratio "30000/1001" = Some (30000, 1001)
  /\ py_eval "30000/1001"
     = fmap_res (fun q => PNum (NFloat q)) (int_truediv 30000 1001).
Proof.
  refine (ratio_text_evaluates_to_the_quotient 30000 1001 _ _ _ _).
  - lia.
  - lia.
  - vm_compute. lia.
  - vm_compute. lia.
Defined.

Lemma folder_scan_witness :
  find_video_files_in mixed_folder ["videos"]
  = find_video_files_in extracted ["videos"].
Proof.
  refine (find_video_files_looks_below_the_folder_only mixed_folder extracted
            ["videos"] _).
  intros p Hb. unfold extracted, add_files. simpl.
  rewrite !lookup_insert_ne; [reflexivity|..]; intros <-; discriminate Hb.
Defined.

Lemma uncaught_exception_witness :
  let r := main (args "/videos" "/out" false) (world abort_folder "/usr/bin") in
  fst r = Traceback (Exn ZeroDivisionError "division by zero")
  /\ spawned (snd r)
     = [ ["ffmpeg"; "-version"];
         ffprobe_cmd extractor;
         ["ffmpeg"; "-i"; "/videos/a.mp4"; "-vf"; "fps=30"; "-start_number"; "0";
          "/out/a/frame_%06d.png"];
         ["ffmpeg"; "-version"];
         ["ffprobe"; "-v"; "error"; "-select_streams"; "v:0"; "-show_entries";
          "stream=duration,r_frame_rate,width,height"; "-of";
          "default=noprint_wrappers=1:nokey=1:noprint_section_header=1";
          "/videos/zero.mp4"] ].
Proof.
  pose (arguments := args "/videos" "/out" false).
  pose (w := world abort_folder "/usr/bin").
  pose (w0 := snd (print "Found 3 video file(s) in videos/" w)).
  pose (w1 := snd (process_video arguments ["out"] ["videos"; "a.mp4"]
                     (snd (print (item_header 3 1 ["videos"; "a.mp4"]) w0)))).
  pose (w2 := snd (process_video arguments ["out"] ["videos"; "zero.mp4"]
                     (snd (print (item_header 3 2 ["videos"; "zero.mp4"]) w1)))).
  unshelve epose proof (uncaught_exception_ends_the_batch arguments w w1 w2
              [["videos"; "a.mp4"]] [["videos"; "zz.mp4"]] ["videos"; "zero.mp4"] []
              (Exn ZeroDivisionError "division by zero") _ _ _ _ _) as Hmain.
  - vm_compute. reflexivity.
  - vm_compute. reflexivity.
  - refine (batch_run_cons _ _ _ 1 ["videos"; "a.mp4"] [] _ w1 w1 true []
                _ (batch_run_nil _ _ _ 2 w1)).
    apply item_succeeded. vm_compute. reflexivity.
  - vm_compute. reflexivity.
  - reflexivity.
  - intros r. subst r.
    change (main (args "/videos" "/out" false) (world abort_folder "/usr/bin"))
      with (main arguments w).
    rewrite Hmain. clear Hmain. vm_compute. split; reflexivity.
Defined.

Lemma single_file_status_witness :
  let arguments := args "/videos/broken.mp4" "/out" false in
  let w := world three_videos "/usr/bin" in
  let self := {| video_path := ["videos"; "broken.mp4"]; output_dir := ["out"];
                 frame_rate := "30"; format := "png";
                 ffmpeg_bin := "ffmpeg"; ffprobe_bin := "ffprobe" |} in
  let w1 := snd (__init__ "/videos/broken.mp4" "/out" None "png" w) in
  main arguments w
  = (Exit (if false then 0 else 1), snd (extract_frames self true w1)).
Proof.
  intros arguments w self w1.
  refine (single_file_status_follows_extraction arguments w w1
            (snd (extract_frames self true w1)) self false _ _);
    vm_compute; reflexivity.
Defined.

Lemma create_output_directory_witness :
  let w := world stale_folder "/usr/bin" in
  let w' := snd (_create_output_directory ["out"; "deep"] w) in
  fs w ⊆ fs w'
  /\ exists w'', _create_output_directory ["out"; "deep"] w' = (Ok tt, w'')
                 /\ fs w'' = fs w'.
Proof.
  intros w w'.
  refine (create_output_directory_keeps_and_repeats ["out"; "deep"] w w' _).
  vm_compute. reflexivity.
Defined.

(** The format [.ÉX], which is not ASCII: [str.lower] folds the
    capital E with acute accent as well, and the dot is stripped. *)
Example format_with_a_capital_outside_ascii :
  normalize_format ".ÉX" = "éx"
  /\ Str.lower ".ÉX" = ".Éx".
Proof. split; vm_compute; reflexivity. Qed.

(** A binary that is there and may not be executed: neither the bundled
    ffmpeg nor the one on the search path can be invoked, the version
    check of either raises [PermissionError], and the constructor raises
    that exception, no [RuntimeError]; the run ends in a traceback. *)
Lemma unexecutable_binary_is_no_runtime_error :
  let e := Exn OtherException "[Errno 13] Permission denied: 'ffmpeg'" in
  let w := world mixed_folder "/usr/bin" in
  @spawn (scripted_env permission_denied) ["ffmpeg"; "-version"] (PATH w) (fs w)
  = SpawnRaise e
  /\ @spawn (scripted_env permission_denied)
       ["/opt/tool/ffmpeg/bin/ffmpeg.exe"; "-version"] (PATH w) (fs w)
     = SpawnRaise e
  /\ @__init__ (scripted_env permission_denied) "/videos/a.mp4" "/out" None "png" w
     = (Raise e, mkWorld mixed_folder "/usr/bin" [] [] [["ffmpeg"; "-version"]])
  /\ @main (scripted_env permission_denied) (args "/videos/a.mp4" "/out" false) w
     = (Traceback e, mkWorld mixed_folder "/usr/bin" [] [] [["ffmpeg"; "-version"]]).
Proof. repeat split; vm_compute; reflexivity. Qed.



Lemma same_name_witness :
  let arguments := args "/videos" "/out" false in
  let w := world same_name_folder "/usr/bin" in
  let w1' := snd (process_video arguments ["out"] ["videos"; "x"; "clip.mp4"] w) in
  let w2' := snd (process_video arguments ["out"] ["videos"; "y"; "clip.mp4"] w1') in
  (exists bin probe,
      spawned w1'
      = spawned w
        ++ [ [bin; "-version"]; probe;
             [ bin; "-i"; "/videos/x/clip.mp4"; "-vf"; "fps=30"; "-start_number"; "0";
               "/out/clip/frame_%06d.png" ] ])
  /\ (exists bin probe,
        spawned w2'
        = spawned w1'
          ++ [ [bin; "-version"]; probe;
               [ bin; "-i"; "/videos/y/clip.mp4"; "-vf"; "fps=30"; "-start_number"; "0";
                 "/out/clip/frame_%06d.png" ] ]).
Proof.
  intros arguments w w1' w2'.
  destruct (same_name_same_output_directory arguments ["out"]
              ["videos"; "x"; "clip.mp4"] ["videos"; "y"; "clip.mp4"]
              w w1' w1' w2' true true) as (_ & _ & H1 & H2).
  - reflexivity.
  - vm_compute. reflexivity.
  - vm_compute. reflexivity.
  - split; [exact H1 | exact H2].
Defined.

(** The folder with the two videos named [clip.mp4], run as a batch:
    both extractions are given the pattern [/out/clip/frame_%06d.png],
    and the directory [/out/clip] holds three frames at the end, those
    of the second video in the place of those of the first. *)
Example same_name_batch :
  let r := main (args "/videos" "/out" false) (world same_name_folder "/usr/bin") in
  fst r = Exit 0
  /\ List.map (fun cmd => List.last cmd "") (spawned (snd r))
     = [ "-version"; "/videos/x/clip.mp4"; "/out/clip/frame_%06d.png";
         "-version"; "/videos/y/clip.mp4"; "/out/clip/frame_%06d.png" ]
  /\ length (glob_frames (fs (snd r)) ["out"; "clip"] "png") = 3%nat.
Proof. vm_compute. done. Qed.

(** The parser ends the run before anything of it happens: a command
    line without the output directory gives status 2 and the usage on
    the error stream; [-h] gives status 0. *)
Example usage_error_exits_2 :
  main_argv ["/videos/a.mp4"] (world mixed_folder "/usr/bin")
  = (Exit 2,
     mkWorld mixed_folder "/usr/bin" []
       [ "usage: main.py [-h] [--fps FPS] [--format FORMAT] [-q] input output";
         "main.py: error: the following arguments are required: output" ] [])
  /\ fst (main_argv ["-h"] (world mixed_folder "/usr/bin")) = Exit 0
  /\ fst (main_argv ["/videos/nothing.mp4"; "/out"] (world mixed_folder "/usr/bin"))
     = Exit 1.
Proof. repeat split; vm_compute; reflexivity. Qed.

End ConcreteCoverage.
